(** * Gaussian-process projection utilities: a shallow embedding

    The development follows [python/projection_models/gp_projection.py]:
    the class [GaussianProcessProjection] (constructor, [fit], [predict]),
    the helper [make_lag_features] and the convenience function
    [project_with_autoregression].

    Python values are modelled as the module uses them: [int] as [Z],
    [float] (numpy float64) as a primitive binary64 [float], lists and
    one-dimensional arrays as [list], two-dimensional arrays as lists of
    rows.  Exceptions are values of type [exn]; a method of the class is a
    state transformer over the object it is called on. *)

From Stdlib Require Import ZArith String Ascii DecimalString Floats Bool Lia List.
From Stdlib Require Import Permutation.
Import ListNotations.

Set Warnings "-inexact-float".
Local Open Scope string_scope.
Local Open Scope list_scope.
Local Open Scope Z_scope.

(** ** Python built-ins used by the module *)

Module Py.

(** [len(l)] *)
Definition len {A : Type} (l : list A) : Z := Z.of_nat (length l).

(** Normalisation of a slice bound against a sequence of length [n]:
    a negative bound counts from the end, and everything is clipped
    into [0..n]. *)
Definition clip (n i : Z) : Z :=
  if i <? 0 then Z.max 0 (i + n) else Z.min i n.

(** [l[start:stop]] with step 1; [None] is an omitted bound. *)
Definition slice {A : Type} (l : list A) (start stop : option Z) : list A :=
  let n := len l in
  let lo := match start with None => 0 | Some i => clip n i end in
  let hi := match stop with None => n | Some j => clip n j end in
  firstn (Z.to_nat (hi - lo)) (skipn (Z.to_nat lo) l).

(** [l[i]]; [None] stands for [IndexError]. *)
Definition getitem {A : Type} (l : list A) (i : Z) : option A :=
  let n := len l in
  let j := if i <? 0 then i + n else i in
  if (0 <=? j) && (j <? n) then nth_error l (Z.to_nat j) else None.

(** [range(a, b)] *)
Definition range (a b : Z) : list Z :=
  map (fun k => a + Z.of_nat k) (seq 0 (Z.to_nat (b - a))).

(** [str(i)] for an integer, as an f-string prints it. *)
Definition str (i : Z) : string := NilZero.string_of_int (Z.to_int i).

End Py.

(** ** Exceptions *)

(** The three exception classes the module raises itself carry their
    message.  [LibraryError] stands for any exception that comes out of a
    numpy, pandas or scikit-learn call and is not caught by the module;
    its argument names the call. *)
Inductive exn : Type :=
| TypeError (msg : string)
| ValueError (msg : string)
| RuntimeError (msg : string)
| LibraryError (origin : string).

(** The error kinds of the specification, as the exceptions of the source. *)
Definition NotFitted : exn :=
  RuntimeError "Model must be fitted before calling predict".
Definition SchemaMismatch : exn :=
  ValueError "X_future must have the same feature columns as the training data".
Definition LengthMismatch : exn :=
  ValueError "X and y must have the same length".
Definition InsufficientData : exn :=
  ValueError "series must contain more observations than `lags`".
Definition TypeMismatch (e : exn) : Prop := exists msg, e = TypeError msg.

Definition result (A : Type) : Type := (exn + A)%type.

Definition Ok {A : Type} (a : A) : result A := inr a.
Definition Err {A : Type} (e : exn) : result A := inl e.

(** A library call that may raise: [None] becomes a [LibraryError]. *)
Definition library {A : Type} (origin : string) (o : option A) : result A :=
  match o with
  | Some a => Ok a
  | None => Err (LibraryError origin)
  end.

Definition rbind {A B : Type} (r : result A) (k : A -> result B) : result B :=
  match r with
  | inl e => inl e
  | inr a => k a
  end.

(** Code that reads and writes a state [S] and may raise.  The state is
    returned in both cases: what a method wrote before it raised stays
    written. *)
Definition M (S A : Type) : Type := S -> result A * S.

Definition ret {S A : Type} (a : A) : M S A := fun s => (Ok a, s).
Definition raise {S A : Type} (e : exn) : M S A := fun s => (Err e, s).
Definition bind {S A B : Type} (m : M S A) (k : A -> M S B) : M S B :=
  fun s =>
    match m s with
    | (inl e, s') => (inl e, s')
    | (inr a, s') => k a s'
    end.
Definition modify {S : Type} (f : S -> S) : M S unit := fun s => (Ok tt, f s).
Definition lift {S A : Type} (r : result A) : M S A := fun s => (r, s).

Declare Scope monad_scope.
Delimit Scope monad_scope with monad.
Notation "x <- m ;; k" := (bind m (fun x => k))
  (at level 61, m at next level, right associativity) : monad_scope.
Notation "m ;; k" := (bind m (fun _ => k))
  (at level 61, right associativity) : monad_scope.
Notation "x <~ r ;; k" := (rbind r (fun x => k))
  (at level 61, r at next level, right associativity) : monad_scope.

(** A [for] loop over the items of [xs] with the loop-carried variables
    in [acc]. *)
Fixpoint for_each {S A X : Type} (xs : list X) (body : X -> A -> M S A)
  (acc : A) : M S A :=
  match xs with
  | [] => ret acc
  | x :: xs' => bind (body x acc) (for_each xs' body)
  end.

(** The same loop for a body that has no state. *)
Fixpoint for_each_r {A X : Type} (xs : list X) (body : X -> A -> result A)
  (acc : A) : result A :=
  match xs with
  | [] => Ok acc
  | x :: xs' => rbind (body x acc) (for_each_r xs' body)
  end.

(** ** numpy and pandas values *)

Definition nan : float := PrimFloat.nan.

Definition vector : Type := list float.
Definition matrix : Type := list (list float).

(** [v.reshape(-1, 1)] and [m.ravel()] *)
Definition reshape_column (v : vector) : matrix := map (fun x => [x]) v.
Definition ravel (m : matrix) : vector := concat m.

(** Timestamps of a [DatetimeIndex] are nanoseconds since the epoch. *)
Definition timestamp : Type := Z.

Inductive Index : Type :=
| RangeIndex (start stop : Z)
| DatetimeIndex (stamps : list timestamp)
| Int64Index (labels : list Z).

Definition index_length (ix : Index) : nat :=
  match ix with
  | RangeIndex a b => Z.to_nat (b - a)
  | DatetimeIndex st => length st
  | Int64Index ls => length ls
  end.

(** [ix[k:]] *)
Definition index_from (ix : Index) (k : Z) : Index :=
  match ix with
  | RangeIndex a b =>
      let n := Z.max 0 (b - a) in
      RangeIndex (a + Py.clip n k) (a + n)
  | DatetimeIndex st => DatetimeIndex (Py.slice st (Some k) None)
  | Int64Index ls => Int64Index (Py.slice ls (Some k) None)
  end.

Record Series : Type := {
  s_index : Index;
  s_values : vector;
  s_name : option string
}.

Record DataFrame : Type := {
  df_columns : list string;
  df_index : Index;
  df_rows : matrix
}.

(** What pandas guarantees of every Series and DataFrame it builds. *)
Definition series_wf (s : Series) : Prop :=
  index_length (s_index s) = length (s_values s).

(** The objects the public functions are called with.  The functions
    test their arguments with [isinstance], so an argument may be
    anything. *)
Inductive pyval : Type :=
| PyDataFrame (d : DataFrame)
| PySeries (s : Series)
| PyArray (a : matrix)
| PyNone.

Module pd.

(** [pd.Series(data, index=ix, name=name)]: pandas raises when the
    lengths differ. *)
Definition make_Series (data : vector) (ix : Index) (name : option string)
  : option Series :=
  if Nat.eqb (length data) (index_length ix)
  then Some {| s_index := ix; s_values := data; s_name := name |}
  else None.

Definition width (data : matrix) : nat :=
  fold_right (fun r w => Nat.max (length r) w) 0%nat data.

Definition pad (w : nat) (r : list float) : list float :=
  r ++ repeat nan (w - length r).

(** [pd.DataFrame(data, columns=cols, index=ix)] for a list of rows.
    A short row is filled with NaN up to the longest one; pandas raises
    when the number of column names differs from that width, or the
    index from the number of rows.  Without [index] the rows are
    numbered from 0. *)
Definition make_DataFrame (data : matrix) (cols : list string)
  (ix : option Index) : option DataFrame :=
  let w := width data in
  let ix' := match ix with
             | Some i => i
             | None => RangeIndex 0 (Py.len data)
             end in
  match data with
  | [] =>
      if Nat.eqb (index_length ix') 0
      then Some {| df_columns := cols; df_index := ix'; df_rows := [] |}
      else None
  | _ =>
      if Nat.eqb w (length cols) && Nat.eqb (index_length ix') (length data)
      then Some {| df_columns := cols; df_index := ix';
                   df_rows := map (pad w) data |}
      else None
  end.

Definition columns_eq (a b : list string) : bool :=
  if list_eq_dec string_dec a b then true else false.

Fixpoint unique (cols : list string) : bool :=
  match cols with
  | [] => true
  | c :: cs => negb (existsb (String.eqb c) cs) && unique cs
  end.

Fixpoint position (c : string) (cols : list string) : option nat :=
  match cols with
  | [] => None
  | c' :: cs =>
      if String.eqb c c' then Some 0%nat
      else option_map S (position c cs)
  end.

(** The cell of row [r] under label [c]; NaN when the frame has no
    such column. *)
Definition cell (cols : list string) (r : list float) (c : string) : float :=
  match position c cols with
  | Some j => nth j r nan
  | None => nan
  end.

(** [X.reindex(columns=cols)].  Columns are looked up by label; a label
    the frame does not have gives a column of NaN, and columns that are
    not asked for are dropped.  pandas raises ("cannot reindex on an
    axis with duplicate labels") only when the frame's own labels
    repeat and differ from the ones asked for.  [cols = None] leaves
    the columns alone. *)
Definition reindex (X : DataFrame) (cols : option (list string))
  : option DataFrame :=
  match cols with
  | None => Some X
  | Some cs =>
      if columns_eq (df_columns X) cs then Some X
      else if unique (df_columns X)
      then Some {| df_columns := cs;
                   df_index := df_index X;
                   df_rows := map (fun r => map (cell (df_columns X) r) cs)
                                  (df_rows X) |}
      else None
  end.

End pd.

Notation "' pat <- m ;; k" :=
  (bind m (fun x => match x with pat => k end))
  (at level 61, pat pattern, m at next level, right associativity) : monad_scope.
Notation "' pat <~ r ;; k" :=
  (rbind r (fun x => match x with pat => k end))
  (at level 61, pat pattern, r at next level, right associativity) : monad_scope.

(** ** The libraries behind the module *)

(** A scikit-learn kernel expression. *)
Inductive Kernel : Type :=
| ConstantKernel (constant_value : float) (constant_value_bounds : float * float)
| RBF (length_scale : float) (length_scale_bounds : float * float)
| WhiteKernel (noise_level : float) (noise_level_bounds : float * float)
| Product (k1 k2 : Kernel)
| Sum (k1 k2 : Kernel).

(** The scikit-learn estimators the class holds.  Their numerics are not
    part of this repository and stay abstract: [scaler] is the state of a
    [StandardScaler] object and [regressor] that of a
    [GaussianProcessRegressor] object.  A fitting call returns the new
    state of the object together with its outcome; [transform],
    [inverse_transform], [scale_] and [predict] only read the object.
    [None] as an outcome means the call raised. *)
Class Sklearn : Type := {
  scaler : Type;
  StandardScaler : scaler;
  fit_transform : scaler -> matrix -> option matrix * scaler;
  transform : scaler -> matrix -> option matrix;
  inverse_transform : scaler -> matrix -> option matrix;
  scale_ : scaler -> option vector;
  regressor : Type;
  GaussianProcessRegressor : Kernel -> float -> Z -> bool -> regressor;
  gpr_fit : regressor -> matrix -> vector -> option unit * regressor;
  gpr_predict : regressor -> matrix -> option (vector * vector)
}.

(** The two pandas date functions [make_lag_features] calls.  [offset] is a
    valid frequency; [infer_freq] gives [None] both when pandas finds no
    frequency and when it raises, since the caller turns the exception
    into [None]; [date_range] is called with a non-negative number of
    periods and returns that many stamps. *)
Class Calendar : Type := {
  offset : Type;
  infer_freq : list timestamp -> option offset;
  date_range : timestamp -> nat -> offset -> list timestamp;
  date_range_length :
    forall start periods f, length (date_range start periods f) = periods
}.

(** [float(a)] for a one-dimensional array: defined for one element. *)
Definition as_float (a : vector) : option float :=
  match a with
  | [x] => Some x
  | _ => None
  end.

(** ** The class [GaussianProcessProjection] *)

Section Projection.

Context {SK : Sklearn} {CAL : Calendar}.

Record GaussianProcessProjection : Type := {
  kernel : Kernel;
  normalize_y : bool;
  n_restarts_optimizer : Z;
  alpha : float;
  _scaler_X : scaler;
  _scaler_y : option scaler;
  _gpr : option regressor;
  _feature_columns : option (list string);
  _is_fitted : bool
}.

Definition default_kernel : Kernel :=
  (Sum (Product (ConstantKernel 1.0 (1e-3, 1e3)) (RBF 5.0 (1e-2, 1e3)))
       (WhiteKernel 1.0 (1e-10, 1e1)))%float.

Definition __init__ (kernel : option Kernel) (normalize_y : bool)
  (n_restarts_optimizer : Z) (alpha : float) : GaussianProcessProjection :=
  let kernel := match kernel with
                | None => default_kernel
                | Some k => k
                end in
  {| kernel := kernel;
     normalize_y := normalize_y;
     n_restarts_optimizer := n_restarts_optimizer;
     alpha := alpha;
     _scaler_X := StandardScaler;
     _scaler_y := if normalize_y then Some StandardScaler else None;
     _gpr := None;
     _feature_columns := None;
     _is_fitted := false |}.

(** Keyword arguments of the constructor; an absent one takes the
    default of the signature. *)
Record kwargs : Type := {
  kw_kernel : option Kernel;
  kw_normalize_y : option bool;
  kw_n_restarts_optimizer : option Z;
  kw_alpha : option float
}.

Definition no_kwargs : kwargs :=
  {| kw_kernel := None; kw_normalize_y := None;
     kw_n_restarts_optimizer := None; kw_alpha := None |}.

Definition default {A : Type} (d : A) (o : option A) : A :=
  match o with
  | Some a => a
  | None => d
  end.

(** The constructor called with the keyword arguments [gp_kwargs]. *)
Definition construct (kw : kwargs) : GaussianProcessProjection :=
  __init__ (kw_kernel kw)
           (default true (kw_normalize_y kw))
           (default 5 (kw_n_restarts_optimizer kw))
           (default 1e-10%float (kw_alpha kw)).

(** The fitting calls made on scikit-learn estimators, in order. *)
Inductive event : Type :=
| FitScaler (X : matrix)
| FitRegressor (X : matrix) (y : vector).

(** A method runs on the object it is called on and on the log of
    fitting calls made so far. *)
Record heap : Type := {
  self : GaussianProcessProjection;
  calls : list event
}.

Definition this : M heap GaussianProcessProjection :=
  fun h => (Ok (self h), h).

Definition update_self (f : GaussianProcessProjection -> GaussianProcessProjection)
  : M heap unit :=
  modify (fun h => {| self := f (self h); calls := calls h |}).

Definition record_call (e : event) : M heap unit :=
  modify (fun h => {| self := self h; calls := calls h ++ [e] |}).

Definition set_scaler_X (s : scaler) (g : GaussianProcessProjection) :=
  {| kernel := kernel g; normalize_y := normalize_y g;
     n_restarts_optimizer := n_restarts_optimizer g; alpha := alpha g;
     _scaler_X := s; _scaler_y := _scaler_y g; _gpr := _gpr g;
     _feature_columns := _feature_columns g; _is_fitted := _is_fitted g |}.

Definition set_scaler_y (s : option scaler) (g : GaussianProcessProjection) :=
  {| kernel := kernel g; normalize_y := normalize_y g;
     n_restarts_optimizer := n_restarts_optimizer g; alpha := alpha g;
     _scaler_X := _scaler_X g; _scaler_y := s; _gpr := _gpr g;
     _feature_columns := _feature_columns g; _is_fitted := _is_fitted g |}.

Definition set_gpr (r : option regressor) (g : GaussianProcessProjection) :=
  {| kernel := kernel g; normalize_y := normalize_y g;
     n_restarts_optimizer := n_restarts_optimizer g; alpha := alpha g;
     _scaler_X := _scaler_X g; _scaler_y := _scaler_y g; _gpr := r;
     _feature_columns := _feature_columns g; _is_fitted := _is_fitted g |}.

Definition set_feature_columns (c : option (list string))
  (g : GaussianProcessProjection) :=
  {| kernel := kernel g; normalize_y := normalize_y g;
     n_restarts_optimizer := n_restarts_optimizer g; alpha := alpha g;
     _scaler_X := _scaler_X g; _scaler_y := _scaler_y g; _gpr := _gpr g;
     _feature_columns := c; _is_fitted := _is_fitted g |}.

Definition set_is_fitted (b : bool) (g : GaussianProcessProjection) :=
  {| kernel := kernel g; normalize_y := normalize_y g;
     n_restarts_optimizer := n_restarts_optimizer g; alpha := alpha g;
     _scaler_X := _scaler_X g; _scaler_y := _scaler_y g; _gpr := _gpr g;
     _feature_columns := _feature_columns g; _is_fitted := b |}.

Local Open Scope monad_scope.

(** [self._scaler_X.fit_transform(X_vals)] *)
Definition scaler_X_fit_transform (X_vals : matrix) : M heap matrix :=
  me <- this ;;
  let (out, s) := fit_transform (_scaler_X me) X_vals in
  record_call (FitScaler X_vals) ;;
  update_self (set_scaler_X s) ;;
  lift (library "StandardScaler.fit_transform" out).

(** [self._scaler_y.fit_transform(y_vals)]; the attribute is [None] when
    the object was built with [normalize_y=False]. *)
Definition scaler_y_fit_transform (y_vals : matrix) : M heap matrix :=
  me <- this ;;
  match _scaler_y me with
  | None => raise (LibraryError "NoneType.fit_transform")
  | Some sy =>
      let (out, s) := fit_transform sy y_vals in
      record_call (FitScaler y_vals) ;;
      update_self (set_scaler_y (Some s)) ;;
      lift (library "StandardScaler.fit_transform" out)
  end.

(** [self._gpr.fit(Xs, ys)] *)
Definition gpr_fit_call (Xs : matrix) (ys : vector) : M heap unit :=
  me <- this ;;
  match _gpr me with
  | None => raise (LibraryError "NoneType.fit")
  | Some g =>
      let (out, g') := gpr_fit g Xs ys in
      record_call (FitRegressor Xs ys) ;;
      update_self (set_gpr (Some g')) ;;
      lift (library "GaussianProcessRegressor.fit" out)
  end.

(** [fit(self, X, y)].  The Python method returns [self]; here the object
    is the state the computation leaves behind. *)
Definition fit (X y : pyval) : M heap unit :=
  match X with
  | PyDataFrame X =>
      match y with
      | PySeries y =>
          if negb (Py.len (df_rows X) =? Py.len (s_values y))
          then raise (ValueError "X and y must have the same length")
          else
            update_self (set_feature_columns (Some (df_columns X))) ;;
            let X_vals := df_rows X in
            Xs <- scaler_X_fit_transform X_vals ;;
            let y_vals := reshape_column (s_values y) in
            me <- this ;;
            ys <- (if normalize_y me
                   then r <- scaler_y_fit_transform y_vals ;; ret (ravel r)
                   else ret (ravel y_vals)) ;;
            me <- this ;;
            update_self
              (set_gpr (Some (GaussianProcessRegressor
                                (kernel me) (alpha me)
                                (n_restarts_optimizer me) false))) ;;
            gpr_fit_call Xs ys ;;
            update_self (set_is_fitted true)
      | _ => raise (TypeError "y must be a pandas Series")
      end
  | _ => raise (TypeError "X must be a pandas DataFrame")
  end.

(** What [predict] returns: the projection, and with [return_std=True]
    the pair of projection and standard deviation. *)
Inductive prediction : Type :=
| Point (y_series : Series)
| WithStd (y_series std_series : Series).

(** [list(X_future.columns) != self._feature_columns] *)
Definition columns_differ (cols : list string) (fc : option (list string))
  : bool :=
  match fc with
  | Some c => negb (pd.columns_eq cols c)
  | None => true
  end.

(** [predict(self, X_future, return_std)] *)
Definition predict (X_future : pyval) (return_std : bool)
  : M heap prediction :=
  me <- this ;;
  if negb (_is_fitted me)
  then raise (RuntimeError "Model must be fitted before calling predict")
  else
    match X_future with
    | PyDataFrame X_future =>
        X_future <-
          (if columns_differ (df_columns X_future) (_feature_columns me)
           then
             match pd.reindex X_future (_feature_columns me) with
             | Some X' => ret X'
             | None =>
                 raise (ValueError
                   "X_future must have the same feature columns as the training data")
             end
           else ret X_future) ;;
        let Xf_vals := df_rows X_future in
        Xf_scaled <- lift (library "StandardScaler.transform"
                             (transform (_scaler_X me) Xf_vals)) ;;
        ' (y_pred_scaled, y_std) <-
          match _gpr me with
          | None => raise (LibraryError "NoneType.predict")
          | Some g => lift (library "GaussianProcessRegressor.predict"
                              (gpr_predict g Xf_scaled))
          end ;;
        ' (y_pred, y_std) <-
          (if normalize_y me
           then
             match _scaler_y me with
             | None => raise (LibraryError "NoneType.inverse_transform")
             | Some sy =>
                 y_pred <- lift (library "StandardScaler.inverse_transform"
                                   (inverse_transform sy
                                      (reshape_column y_pred_scaled))) ;;
                 scale <- lift (library "float(scale_)"
                                  (match scale_ sy with
                                   | Some a => as_float a
                                   | None => None
                                   end)) ;;
                 ret (ravel y_pred, map (fun s => (s * scale)%float) y_std)
             end
           else ret (y_pred_scaled, y_std)) ;;
        y_series <- lift (library "pd.Series"
                            (pd.make_Series y_pred (df_index X_future)
                                            (Some "gp_projection"))) ;;
        if return_std
        then
          std_series <- lift (library "pd.Series"
                                (pd.make_Series y_std (df_index X_future)
                                                (Some "gp_std"))) ;;
          ret (WithStd y_series std_series)
        else ret (Point y_series)
    | _ => raise (TypeError "X_future must be a pandas DataFrame")
    end.

(** ** The lag helper and the autoregressive forecast *)

(** [[f"lag{i}" for i in range(1, lags + 1)]] *)
Definition lag_columns (lags : Z) : list string :=
  map (fun i => ("lag" ++ Py.str i)%string) (Py.range 1 (lags + 1)).

(** [pd.date_range(start=start, periods=periods, freq=f)]; pandas raises
    on a negative number of periods. *)
Definition pd_date_range (start : timestamp) (periods : Z) (f : offset)
  : option (list timestamp) :=
  if periods <? 0 then None
  else Some (date_range start (Z.to_nat periods) f).

(** [make_lag_features(series, lags, n_steps, freq)] *)
Definition make_lag_features (series : pyval) (lags n_steps : Z)
  (freq : option offset) : result DataFrame :=
  match series with
  | PySeries series =>
      if lags <? 1 then Err (ValueError "lags must be >= 1")
      else
        let last_vals := s_values series in
        if Py.len last_vals <? lags
        then Err (ValueError "series must have at least `lags` observations")
        else
          let freq :=
            match s_index series, freq with
            | DatetimeIndex stamps, None => infer_freq stamps
            | _, _ => freq
            end in
          future_index <~
            match s_index series, freq with
            | DatetimeIndex stamps, Some f =>
                start <~ library "series.index[-1]" (Py.getitem stamps (-1)) ;;
                dates <~ library "pd.date_range"
                           (pd_date_range start (n_steps + 1) f) ;;
                Ok (DatetimeIndex (Py.slice dates (Some 1) None))
            | _, _ => Ok (RangeIndex 0 n_steps)
            end ;;
          let window := Py.slice last_vals (Some (- lags)) None in
          let '(X_future, _) :=
            fold_left
              (fun '(X_future, window) _ =>
                 (X_future ++ [rev window],
                  Py.slice window (Some 1) None ++ [nan]))
              (Py.range 0 n_steps) ([], window) in
          let cols := lag_columns lags in
          library "pd.DataFrame"
            (pd.make_DataFrame X_future cols (Some future_index))
  | _ => Err (TypeError "series must be a pandas Series")
  end.

(** [series.name or d]: an absent or empty name is falsy. *)
Definition name_or (series : Series) (d : string) : string :=
  match s_name series with
  | Some n => if String.eqb n EmptyString then d else n
  | None => d
  end.

(** The supervised data set of [project_with_autoregression]: the loop
    over [range(lags, len(vals))] and the two pandas objects built from
    its rows. *)
Definition supervised_rows (vals : vector) (lags : Z)
  : result (matrix * vector) :=
  for_each_r (Py.range lags (Py.len vals))
    (fun t '(X_rows, y_rows) =>
       let window := Py.slice vals (Some (t - lags)) (Some t) in
       v <~ library "vals[t]" (Py.getitem vals t) ;;
       Ok (X_rows ++ [rev window], y_rows ++ [v]))
    ([], []).

Definition training_set (series : Series) (lags : Z)
  : result (DataFrame * Series) :=
  let vals := s_values series in
  ' (X_rows, y_rows) <~ supervised_rows vals lags ;;
  X <~ library "pd.DataFrame"
         (pd.make_DataFrame X_rows (lag_columns lags) None) ;;
  y <~ library "pd.Series"
         (pd.make_Series y_rows (index_from (s_index series) lags)
                         (Some (name_or series "y"))) ;;
  Ok (X, y).

(** A method call on a local object from code that only carries the log
    of fitting calls: the object comes back as the call left it. *)
Definition call {A : Type} (obj : GaussianProcessProjection) (m : M heap A)
  : M (list event) (A * GaussianProcessProjection) :=
  fun log =>
    match m {| self := obj; calls := log |} with
    | (inl e, h) => (inl e, calls h)
    | (inr a, h) => (inr (a, self h), calls h)
    end.

(** [s.iloc[0]] of the value [predict] returned without [return_std]. *)
Definition iloc0 (p : prediction) : option float :=
  match p with
  | Point s => Py.getitem (s_values s) 0
  | WithStd _ _ => None
  end.

(** The body of the forecasting loop: the loop-carried variables are
    [preds], [window] and the object [model]. *)
Definition forecast_step (columns : list string) (_ : Z)
  (acc : vector * vector * GaussianProcessProjection)
  : M (list event) (vector * vector * GaussianProcessProjection) :=
  let '(preds, window, model) := acc in
  features <- lift (library "pd.DataFrame"
                      (pd.make_DataFrame [rev window] columns None)) ;;
  ' (p, model) <- call model (predict (PyDataFrame features) false) ;;
  yhat <- lift (library "iloc[0]" (iloc0 p)) ;;
  ret (preds ++ [yhat], Py.slice window (Some 1) None ++ [yhat], model).

(** [project_with_autoregression(series, lags, n_steps, gp_kwargs)] *)
Definition project_with_autoregression (series : Series) (lags n_steps : Z)
  (gp_kwargs : option kwargs) : M (list event) Series :=
  let gp_kwargs := default no_kwargs gp_kwargs in
  if Py.len (s_values series) <=? lags
  then raise (ValueError "series must contain more observations than `lags`")
  else
    ' (X, y) <- lift (training_set series lags) ;;
    let vals := s_values series in
    let model := construct gp_kwargs in
    ' (_, model) <- call model (fit (PyDataFrame X) (PySeries y)) ;;
    X_future <- lift (make_lag_features (PySeries series) lags n_steps None) ;;
    ' (preds, _, _) <-
      for_each (Py.range 0 n_steps) (forecast_step (df_columns X))
        ([], Py.slice vals (Some (- lags)) None, model) ;;
    lift (library "pd.Series"
            (pd.make_Series preds (df_index X_future)
                            (Some (name_or series "gp_forecast")))).

(** ** Vocabulary of the properties *)

(** [isinstance(v, pd.DataFrame)] and [isinstance(v, pd.Series)] *)
Definition is_DataFrame (v : pyval) : bool :=
  match v with
  | PyDataFrame _ => true
  | _ => false
  end.

Definition is_Series (v : pyval) : bool :=
  match v with
  | PySeries _ => true
  | _ => false
  end.

(** An object on which no [fit] has succeeded yet: it comes from the
    constructor, and every [fit] called on it since then raised. *)
Inductive never_fitted : heap -> Prop :=
| nf_init (k : option Kernel) (ny : bool) (nr : Z) (a : float)
    (log : list event) :
    never_fitted {| self := __init__ k ny nr a; calls := log |}
| nf_fit (h h' : heap) (X y : pyval) (e : exn) :
    never_fitted h -> fit X y h = (Err e, h') -> never_fitted h'
| nf_predict (h h' : heap) (X : pyval) (return_std : bool)
    (r : result prediction) :
    never_fitted h -> predict X return_std h = (r, h') -> never_fitted h'.

(** The second exception for a short series, raised by
    [make_lag_features]. *)
Definition TooShort : exn :=
  ValueError "series must have at least `lags` observations".

(** The value of the series at position [t], and the feature row built
    for target position [t]. *)
Definition value_at (vals : vector) (t : Z) : float :=
  nth (Z.to_nat t) vals nan.

Definition row_at (vals : vector) (lags t : Z) : list float :=
  rev (firstn (Z.to_nat lags) (skipn (Z.to_nat (t - lags)) vals)).

(** One turn of the loop of [make_lag_features]: the window drops its
    oldest value and takes NaN in. *)
Definition slide (window : list float) : list float := tl window ++ [nan].

(** Row [i] of the future frame, from the window of the last [lags]
    observed values (oldest first). *)
Definition lag_row (window : list float) (i : nat) : list float :=
  rev (Nat.iter i slide window).

(** The index of the future rows when no frequency is passed: the dates
    after the last observed one at the inferred frequency, or else a
    count from 0. *)
Definition last_stamp (stamps : list timestamp) : timestamp :=
  nth (length stamps - 1) stamps 0.

Definition future_index (series : Series) (n_steps : Z) : Index :=
  match s_index series with
  | DatetimeIndex stamps =>
      match infer_freq stamps with
      | Some f =>
          DatetimeIndex
            (tl (date_range (last_stamp stamps) (S (Z.to_nat n_steps)) f))
      | None => RangeIndex 0 n_steps
      end
  | _ => RangeIndex 0 n_steps
  end.

(** An exception that reports a series too short for the lags. *)
Definition insufficient_data (e : exn) : Prop :=
  e = InsufficientData \/ e = TooShort.

(** An exception that pandas or scikit-learn raised. *)
Definition from_library (e : exn) : Prop :=
  exists origin, e = LibraryError origin.

(** The forecasting procedure in the words of the specification: at each
    of [n] steps the feature row is the window newest first, the point
    prediction for it is the next forecast, and the window drops its
    oldest value and takes the forecast in. *)
Fixpoint rollout (predict1 : list float -> result float) (n : nat)
  (window : list float) : result (list float) :=
  match n with
  | O => Ok []
  | S n' =>
      rbind (predict1 (rev window)) (fun yhat =>
      rbind (rollout predict1 n' (tl window ++ [yhat])) (fun rest =>
      Ok (yhat :: rest)))
  end.

(** The point prediction of [model] for one feature row under the
    training columns. *)
Definition one_step (model : GaussianProcessProjection)
  (columns : list string) (row : list float) : result float :=
  rbind (library "pd.DataFrame" (pd.make_DataFrame [row] columns None))
    (fun features =>
  rbind (fst (predict (PyDataFrame features) false
                {| self := model; calls := [] |}))
    (fun p => library "iloc[0]" (iloc0 p))).

(** ** Vocabulary of further properties *)

(** The objects the public interface can reach: built by the constructor
    and then passed through calls of [fit] and [predict], failed or not. *)
Inductive reachable : heap -> Prop :=
| reach_init (k : option Kernel) (ny : bool) (nr : Z) (a : float)
    (log : list event) :
    reachable {| self := __init__ k ny nr a; calls := log |}
| reach_fit (h h' : heap) (X y : pyval) (r : result unit) :
    reachable h -> fit X y h = (r, h') -> reachable h'
| reach_predict (h h' : heap) (X : pyval) (return_std : bool)
    (r : result prediction) :
    reachable h -> predict X return_std h = (r, h') -> reachable h'.

(** The hyperparameters given to the constructor are those of [g]. *)
Definition same_settings (g g' : GaussianProcessProjection) : Prop :=
  kernel g' = kernel g /\
  normalize_y g' = normalize_y g /\
  n_restarts_optimizer g' = n_restarts_optimizer g /\
  alpha g' = alpha g.

(** The attributes an object needs are there: a target scaler exactly
    when targets are normalised, and a regressor and recorded columns
    once the object is marked fitted. *)
Definition consistent (g : GaussianProcessProjection) : Prop :=
  (normalize_y g = true <-> _scaler_y g <> None) /\
  (_is_fitted g = true -> _gpr g <> None /\ _feature_columns g <> None).

(** A series returned for the frame [X]: it carries the index of [X],
    one value per index entry, and the given name. *)
Definition labelled_like (X : DataFrame) (name : string) (s : Series) : Prop :=
  s_index s = df_index X /\
  length (s_values s) = index_length (df_index X) /\
  s_name s = Some name.

(** The index of the future rows for any [freq] argument: on a
    DatetimeIndex a passed frequency is used as it is and one is inferred
    only when none is passed; any other index is counted from 0. *)
Definition future_index_with (series : Series) (n_steps : Z)
  (freq : option offset) : Index :=
  match s_index series with
  | DatetimeIndex stamps =>
      match match freq with
            | Some f => Some f
            | None => infer_freq stamps
            end with
      | Some f =>
          DatetimeIndex
            (tl (date_range (last_stamp stamps) (S (Z.to_nat n_steps)) f))
      | None => RangeIndex 0 n_steps
      end
  | _ => RangeIndex 0 n_steps
  end.

(** The window [make_lag_features] and the forecast start from. *)
Definition last_window (series : Series) (lags : Z) : list float :=
  skipn (length (s_values series) - Z.to_nat lags) (s_values series).

(** The last [k] items of a list. *)
Definition lastn {A : Type} (k : nat) (l : list A) : list A :=
  skipn (length l - k) l.

(** A prediction under another index. *)
Definition series_with_index (ix : Index) (s : Series) : Series :=
  {| s_index := ix; s_values := s_values s; s_name := s_name s |}.

Definition with_index (ix : Index) (p : prediction) : prediction :=
  match p with
  | Point y => Point (series_with_index ix y)
  | WithStd y sd => WithStd (series_with_index ix y) (series_with_index ix sd)
  end.

(** The number of regressor fits in a log of fitting calls. *)
Definition regressor_fits (log : list event) : nat :=
  length (filter (fun e => match e with
                           | FitRegressor _ _ => true
                           | FitScaler _ => false
                           end) log).

End Projection.

(** * The CSV reader of [plot_cma.py] *)

Module PlotCma.

(** A row as [csv.DictReader] yields it: the cell under each field name
    of the header; a cell of a line that was too short is [None]. *)
Definition row : Type := list (string * option string).

(** [row[key]]; [None] stands for [KeyError]. *)
Fixpoint lookup (r : row) (key : string) : option (option string) :=
  match r with
  | [] => None
  | (k, v) :: r' => if String.eqb k key then Some v else lookup r' key
  end.

(** The exceptions [read_csv] lets through: a missing field name, a cell
    that is [None], and a cell that is not a number. *)
Inductive csv_error : Type :=
| KeyError (key : string)
| FloatOfNone
| NotANumber (cell : string).

Section Reader.

(** [float(s)] on a string; [None] stands for [ValueError]. *)
Variable py_float : string -> option float.

(** [float(row[key])] *)
Definition float_cell (r : row) (key : string) : csv_error + float :=
  match lookup r key with
  | None => inl (KeyError key)
  | Some None => inl FloatOfNone
  | Some (Some s) =>
      match py_float s with
      | Some x => inr x
      | None => inl (NotANumber s)
      end
  end.

(** The body of the loop of [read_csv]: four conversions and appends, in
    the order of the source. *)
Definition read_row (r : row)
  (acc : vector * vector * vector * vector)
  : csv_error + (vector * vector * vector * vector) :=
  let '(samples, short, longv, diff) := acc in
  match float_cell r "sample" with
  | inl e => inl e
  | inr a =>
      let samples := samples ++ [a] in
      match float_cell r "short" with
      | inl e => inl e
      | inr b =>
          let short := short ++ [b] in
          match float_cell r "long" with
          | inl e => inl e
          | inr c =>
              let longv := longv ++ [c] in
              match float_cell r "diff" with
              | inl e => inl e
              | inr d => inr (samples, short, longv, diff ++ [d])
              end
          end
      end
  end.

Fixpoint read_rows (reader : list row)
  (acc : vector * vector * vector * vector)
  : csv_error + (vector * vector * vector * vector) :=
  match reader with
  | [] => inr acc
  | r :: rest =>
      match read_row r acc with
      | inl e => inl e
      | inr acc' => read_rows rest acc'
      end
  end.

(** [read_csv(path)], from the rows the reader over the opened file
    yields. *)
Definition read_csv (reader : list row)
  : csv_error + (vector * vector * vector * vector) :=
  read_rows reader ([], [], [], []).

(** The four numbers of one row, or the first exception in the order
    sample, short, long, diff. *)
Definition row_numbers (r : row)
  : csv_error + (float * float * float * float) :=
  match float_cell r "sample" with
  | inl e => inl e
  | inr a =>
      match float_cell r "short" with
      | inl e => inl e
      | inr b =>
          match float_cell r "long" with
          | inl e => inl e
          | inr c =>
              match float_cell r "diff" with
              | inl e => inl e
              | inr d => inr (a, b, c, d)
              end
          end
      end
  end.

End Reader.

End PlotCma.

(** ** Stand-ins for the libraries, to run the embedding on data *)

Module Standin.

Definition has_nan (X : matrix) : bool :=
  existsb (existsb PrimFloat.is_nan) X.

(** A trend-following regressor: it predicts [2 * lag1 - lag2] (and
    [lag1] on a single column) with zero deviation, and like
    scikit-learn's it refuses NaN input.  The scaler is the identity with
    scale 1 and lets NaN through; both objects only remember whether
    they were fitted. *)
Definition trend (r : list float) : float :=
  match r with
  | a :: b :: _ => (2 * a - b)%float
  | [a] => a
  | [] => 0%float
  end.

Definition sklearn : Sklearn :=
  {| scaler := bool;
     StandardScaler := false;
     fit_transform := fun _ X => (Some X, true);
     transform := fun s X => if s then Some X else None;
     inverse_transform := fun s X => if s then Some X else None;
     scale_ := fun s => if s then Some [1%float] else None;
     regressor := bool;
     GaussianProcessRegressor := fun _ _ _ _ => false;
     gpr_fit := fun _ X _ => (if has_nan X then None else Some tt, true);
     gpr_predict := fun _ X =>
       if has_nan X then None
       else Some (map trend X, map (fun _ => 0%float) X) |}.

(** A calendar of fixed steps: a frequency is a number of nanoseconds,
    found when at least three stamps are evenly spaced. *)
Fixpoint evenly (step : Z) (stamps : list timestamp) : bool :=
  match stamps with
  | a :: (b :: _) as rest => (b - a =? step) && evenly step rest
  | _ => true
  end.

Definition infer (stamps : list timestamp) : option Z :=
  match stamps with
  | a :: b :: _ :: _ =>
      if (0 <? b - a) && evenly (b - a) stamps then Some (b - a) else None
  | _ => None
  end.

Definition dates (start : timestamp) (periods : nat) (step : Z)
  : list timestamp :=
  map (fun k => start + step * Z.of_nat k) (seq 0 periods).

Definition calendar : Calendar :=
  {| offset := Z;
     infer_freq := infer;
     date_range := dates;
     date_range_length := fun start periods step =>
       eq_trans (length_map _ (seq 0 periods)) (length_seq periods 0) |}.

Definition ramp : Series :=
  {| s_index := RangeIndex 0 5;
     s_values := [1; 2; 3; 4; 5]%float;
     s_name := None |}.

Definition day : Z := 86400000000000.

Definition daily : Series :=
  {| s_index := DatetimeIndex [0; day; 2 * day; 3 * day];
     s_values := [10; 20; 30; 40]%float;
     s_name := Some "close" |}.

(** The training set of [ramp] for two lags, a model fitted on it, and
    two query frames: one with the training columns in another order
    and a column more, one without [lag2]. *)
Definition ramp_X : DataFrame :=
  {| df_columns := ["lag1"; "lag2"];
     df_index := RangeIndex 0 3;
     df_rows := [[2; 1]; [3; 2]; [4; 3]]%float |}.

Definition ramp_y : Series :=
  {| s_index := RangeIndex 2 5;
     s_values := [3; 4; 5]%float;
     s_name := Some "y" |}.

Definition fresh : @heap sklearn :=
  {| self := construct no_kwargs; calls := [] |}.

Definition fitted : @heap sklearn :=
  snd (fit (PyDataFrame ramp_X) (PySeries ramp_y) fresh).

Definition shuffled : DataFrame :=
  {| df_columns := ["lag2"; "volume"; "lag1"];
     df_index := RangeIndex 0 1;
     df_rows := [[4; 1000; 5]]%float |}.

Definition aligned : DataFrame :=
  {| df_columns := ["lag1"; "lag2"];
     df_index := RangeIndex 0 1;
     df_rows := [[5; 4]]%float |}.

Definition partial : DataFrame :=
  {| df_columns := ["lag1"];
     df_index := RangeIndex 0 1;
     df_rows := [[5]]%float |}.

(** The same estimators with a regressor that lets NaN through. *)
Definition lenient : Sklearn :=
  {| scaler := bool;
     StandardScaler := false;
     fit_transform := fun _ X => (Some X, true);
     transform := fun s X => if s then Some X else None;
     inverse_transform := fun s X => if s then Some X else None;
     scale_ := fun s => if s then Some [1%float] else None;
     regressor := bool;
     GaussianProcessRegressor := fun _ _ _ _ => false;
     gpr_fit := fun _ _ _ => (Some tt, true);
     gpr_predict := fun _ X =>
       Some (map trend X, map (fun _ => 0%float) X) |}.

Definition fitted_lenient : @heap lenient :=
  snd (fit (PyDataFrame ramp_X) (PySeries ramp_y)
           {| self := construct no_kwargs; calls := [] |}).

(** A model fitted on a frame in which the label [a] occurs twice, and a
    query frame with the same labels in another order. *)
Definition twins_X : DataFrame :=
  {| df_columns := ["a"; "a"; "b"];
     df_index := RangeIndex 0 1;
     df_rows := [[1; 2; 3]]%float |}.

Definition twins_y : Series :=
  {| s_index := RangeIndex 0 1;
     s_values := [4%float];
     s_name := None |}.

Definition fitted_twins : @heap sklearn :=
  snd (fit (PyDataFrame twins_X) (PySeries twins_y) fresh).

Definition permuted : DataFrame :=
  {| df_columns := ["a"; "b"; "a"];
     df_index := RangeIndex 0 1;
     df_rows := [[1; 3; 2]]%float |}.




Definition doubled : DataFrame :=
  {| df_columns := ["lag1"; "lag1"];
     df_index := RangeIndex 0 1;
     df_rows := [[5; 4]]%float |}.

(** [float] on strings of decimal digits. *)
Definition digit (c : ascii) : option Z :=
  let n := Z.of_nat (nat_of_ascii c) in
  if (48 <=? n) && (n <=? 57) then Some (n - 48) else None.

Fixpoint digits (s : string) (acc : Z) : option Z :=
  match s with
  | EmptyString => Some acc
  | String c s' =>
      match digit c with
      | Some d => digits s' (10 * acc + d)
      | None => None
      end
  end.

Definition parse (s : string) : option float :=
  match s with
  | EmptyString => None
  | _ => option_map (fun z => PrimFloat.of_uint63 (Uint63.of_Z z))
                    (digits s 0)
  end.

(** Two good rows of a CSV file, and a third without its last cell. *)
Definition csv_rows : list PlotCma.row :=
  [ [("sample", Some "0"); ("short", Some "10");
     ("long", Some "12"); ("diff", Some "2")];
    [("sample", Some "1"); ("short", Some "11");
     ("long", Some "12"); ("diff", Some "1")] ].


End Standin.

(** * Properties *)

Section Properties.

Context {SK : Sklearn} {CAL : Calendar}.

Local Arguments pd.reindex : simpl never.
Local Arguments pd.columns_eq : simpl never.

(** Case analysis on every [match] and [if] of a goal that computes a
    method on an arbitrary object, innermost scrutinee first. *)
Ltac split_cases :=
  repeat (simpl;
          match goal with
          | |- context [match ?x with _ => _ end] =>
              lazymatch x with
              | context [match _ with _ => _ end] => fail
              | _ => destruct x eqn:?
              end
          end).

Ltac run_method := split_cases; simpl; try reflexivity; try congruence.

Ltac unfold_method :=
  unfold fit, predict, scaler_X_fit_transform, scaler_y_fit_transform,
    gpr_fit_call, update_self, record_call, this, bind, raise, ret, lift,
    modify, library, Ok, Err.

(** ** [predict] reads the object and writes nothing *)

Lemma predict_reads_only (X : pyval) (return_std : bool) (h : heap) :
  predict X return_std h =
  (fst (predict X return_std {| self := self h; calls := [] |}), h).
Proof. unfold_method. run_method. Qed.

Lemma predict_unfitted (X : pyval) (return_std : bool) (h : heap) :
  _is_fitted (self h) = false ->
  predict X return_std h = (Err NotFitted, h).
Proof. intros Hf. unfold_method. simpl. now rewrite Hf. Qed.

(** ** [fit] sets the flag last *)

Lemma fit_flag (X y : pyval) (h : heap) :
  match fit X y h with
  | (inl _, h') => _is_fitted (self h') = _is_fitted (self h)
  | (inr _, h') => _is_fitted (self h') = true
  end.
Proof. unfold_method. run_method. Qed.

Lemma never_fitted_flag (h : heap) :
  never_fitted h -> _is_fitted (self h) = false.
Proof.
  induction 1 as [| h h' X y e _ IH Hfit | h h' X rs r _ IH Hp].
  - reflexivity.
  - pose proof (fit_flag X y h) as Hflag. rewrite Hfit in Hflag.
    simpl in Hflag. congruence.
  - rewrite predict_reads_only in Hp. inversion Hp; subst. exact IH.
Qed.

(** C5. On an object on which no [fit] has succeeded yet, [predict]
    raises the NotFitted error whatever it is given, frame or not. *)
Theorem predict_before_fit (h : heap) (X : pyval) (return_std : bool) :
  never_fitted h ->
  predict X return_std h = (Err NotFitted, h).
Proof.
  intros Hnf. apply predict_unfitted. now apply never_fitted_flag.
Qed.

(** C7. [predict] leaves the whole object as it found it (both scalers,
    the regressor, the recorded columns and the flag), it makes no
    fitting call, and a second call on the same input returns what the
    first returned. *)
Theorem predict_leaves_model_unchanged (h : heap) (X : pyval)
  (return_std : bool) :
  snd (predict X return_std h) = h /\
  _scaler_X (self (snd (predict X return_std h))) = _scaler_X (self h) /\
  _scaler_y (self (snd (predict X return_std h))) = _scaler_y (self h) /\
  _gpr (self (snd (predict X return_std h))) = _gpr (self h) /\
  _feature_columns (self (snd (predict X return_std h)))
    = _feature_columns (self h) /\
  _is_fitted (self (snd (predict X return_std h))) = _is_fitted (self h) /\
  predict X return_std (snd (predict X return_std h))
    = predict X return_std h.
Proof.
  rewrite (predict_reads_only X return_std h). simpl.
  repeat split; apply predict_reads_only.
Qed.

(** C9. [fit] raises a TypeMismatch error when [X] is not a DataFrame or
    [y] is not a Series, and the LengthMismatch error when the two have
    different numbers of rows; in each case the object is left exactly as
    it was, and no [fit] that raises, for whatever reason, sets the
    fitted flag. *)
Theorem fit_rejects_invalid_input (X y : pyval) (h : heap) :
  (is_DataFrame X = false \/ is_Series y = false ->
   exists e, TypeMismatch e /\ fit X y h = (Err e, h)) /\
  (forall (Xd : DataFrame) (ys : Series),
     X = PyDataFrame Xd -> y = PySeries ys ->
     length (df_rows Xd) <> length (s_values ys) ->
     fit X y h = (Err LengthMismatch, h)) /\
  (forall (e : exn) (h' : heap),
     fit X y h = (Err e, h') ->
     _is_fitted (self h') = _is_fitted (self h)).
Proof.
  split; [|split].
  - intros [HX | Hy].
    + exists (TypeError "X must be a pandas DataFrame"). split.
      * now eexists.
      * destruct X; try discriminate; reflexivity.
    + destruct X.
      2-4: exists (TypeError "X must be a pandas DataFrame");
           split; [now eexists | reflexivity].
      exists (TypeError "y must be a pandas Series"). split.
      * now eexists.
      * destruct y; try discriminate; reflexivity.
  - intros Xd ys -> -> Hlen. unfold fit.
    destruct (Py.len (df_rows Xd) =? Py.len (s_values ys)) eqn:E.
    + apply Z.eqb_eq in E. unfold Py.len in E. lia.
    + reflexivity.
  - intros e h' Hfit. pose proof (fit_flag X y h) as Hflag.
    rewrite Hfit in Hflag. exact Hflag.
Qed.


(** ** Column alignment *)

Lemma columns_eq_true (a b : list string) :
  pd.columns_eq a b = true <-> a = b.
Proof.
  unfold pd.columns_eq. destruct (list_eq_dec string_dec a b); split;
    congruence.
Qed.

Lemma reindex_shape (X X' : DataFrame) (cols : list string) :
  pd.reindex X (Some cols) = Some X' ->
  df_columns X' = cols /\ df_index X' = df_index X.
Proof.
  unfold pd.reindex.
  destruct (pd.columns_eq (df_columns X) cols) eqn:E.
  - intros [= <-]. apply columns_eq_true in E. now split.
  - destruct (pd.unique (df_columns X)); [|discriminate].
    intros [= <-]. now split.
Qed.

Lemma reindex_unique (X : DataFrame) (cols : list string) :
  pd.unique (df_columns X) = true ->
  pd.reindex X (Some cols) =
  Some (if pd.columns_eq (df_columns X) cols then X
        else {| df_columns := cols;
                df_index := df_index X;
                df_rows := map (fun r => map (pd.cell (df_columns X) r) cols)
                               (df_rows X) |}).
Proof.
  intros Hu. unfold pd.reindex. rewrite Hu.
  now destruct (pd.columns_eq (df_columns X) cols).
Qed.

Lemma reindex_distinct (X : DataFrame) (cols : list string) :
  pd.unique (df_columns X) = true ->
  exists X' : DataFrame, pd.reindex X (Some cols) = Some X'.
Proof. intros Hu. rewrite (reindex_unique X cols Hu). now eexists. Qed.

Lemma predict_after_reindex (h : heap) (X X' : DataFrame) (return_std : bool) :
  pd.reindex X (_feature_columns (self h)) = Some X' ->
  predict (PyDataFrame X) return_std h = predict (PyDataFrame X') return_std h.
Proof.
  intros Hre. unfold predict, bind, this. simpl.
  destruct (_is_fitted (self h)); simpl; [|reflexivity].
  destruct (_feature_columns (self h)) as [cols|] eqn:Hfc.
  - destruct (reindex_shape _ _ _ Hre) as [Hc _].
    unfold columns_differ.
    assert (E' : pd.columns_eq (df_columns X') cols = true)
      by now apply columns_eq_true.
    rewrite E'. simpl.
    destruct (pd.columns_eq (df_columns X) cols) eqn:E; simpl.
    + unfold pd.reindex in Hre. rewrite E in Hre. now inversion Hre.
    + rewrite Hre. reflexivity.
  - simpl in Hre. now inversion Hre.
Qed.

(** Once the frame carries the recorded columns, [predict] can only fail
    inside pandas or scikit-learn. *)
Lemma predict_aligned_errors (h : heap) (X : DataFrame) (return_std : bool)
  (e : exn) :
  _is_fitted (self h) = true ->
  (forall cols, _feature_columns (self h) = Some cols -> df_columns X = cols) ->
  fst (predict (PyDataFrame X) return_std h) = Err e ->
  exists origin, e = LibraryError origin.
Proof.
  intros Hf Hcols. unfold predict, bind, this. simpl. rewrite Hf. simpl.
  assert (Hd : (if columns_differ (df_columns X) (_feature_columns (self h))
                then match pd.reindex X (_feature_columns (self h)) with
                     | Some X' => ret X'
                     | None => raise SchemaMismatch
                     end
                else ret X) h = (Ok X, h)).
  { destruct (_feature_columns (self h)) as [cols|]; simpl.
    - rewrite (proj2 (columns_eq_true _ _) (Hcols cols eq_refl)). reflexivity.
    - reflexivity. }
  unfold SchemaMismatch in Hd. rewrite Hd. clear Hd.
  unfold_method.
  split_cases;
  simpl; intros [= <-]; eauto.
Qed.

Lemma unique_NoDup (cols : list string) :
  NoDup cols -> pd.unique cols = true.
Proof.
  induction 1 as [|c cs Hnin _ IH]; [reflexivity|].
  simpl. rewrite IH, andb_true_r. apply negb_true_iff.
  destruct (existsb (String.eqb c) cs) eqn:E; [|reflexivity].
  apply existsb_exists in E. destruct E as (c' & Hin & Heq).
  apply String.eqb_eq in Heq. subst c'. contradiction.
Qed.

Lemma position_present (c : string) (cols : list string) :
  In c cols -> exists j, pd.position c cols = Some j.
Proof.
  induction cols as [|c' cs IH]; simpl; [tauto|].
  intros Hin. destruct (String.eqb c c') eqn:E; [now eexists|].
  destruct Hin as [-> | Hin]; [now rewrite String.eqb_refl in E|].
  destruct (IH Hin) as [j ->]. now eexists.
Qed.

Lemma position_nth_error (c : string) (cols : list string) (j : nat) :
  pd.position c cols = Some j -> nth_error cols j = Some c.
Proof.
  revert j. induction cols as [|c' cs IH]; simpl; [discriminate|].
  intros j. destruct (String.eqb c c') eqn:E.
  - intros [= <-]. apply String.eqb_eq in E. now subst.
  - destruct (pd.position c cs) as [k|]; simpl; [|discriminate].
    intros [= <-]. now apply IH.
Qed.

Lemma Forall2_same {A : Type} (P : A -> A -> Prop) (l : list A) :
  (forall x, P x x) -> Forall2 P l l.
Proof. intros HP. induction l; constructor; auto. Qed.

Lemma Forall2_map_right {A B : Type} (P : A -> B -> Prop) (g : A -> B)
  (l : list A) :
  (forall x, P x (g x)) -> Forall2 P l (map g l).
Proof. intros HP. induction l; cbn [map]; constructor; auto. Qed.

(** Under a label the reindexed row holds what the row held under it. *)
Lemma cell_reindexed (cols cols' : list string) (r : list float) (c : string) :
  In c cols' ->
  pd.cell cols' (map (pd.cell cols r) cols') c = pd.cell cols r c.
Proof.
  intros Hin. unfold pd.cell at 1.
  destruct (position_present c cols' Hin) as [j Hj]. rewrite Hj.
  apply position_nth_error in Hj. apply nth_error_nth.
  now rewrite nth_error_map, Hj.
Qed.

(** C6, as the code has it.  A fitted model is asked about a frame whose
    labels are distinct and include every recorded feature column: a
    permutation of the recorded columns, or a superset of them.  Then the
    reindexing succeeds; the reindexed frame carries the recorded columns
    in their order and the index of the query, and under each recorded
    label every row holds the value the query's row holds under that
    label.  [predict] returns exactly what it returns on the frame
    reindexed by hand, and it raises no exception of its own: it fails
    only if pandas or scikit-learn do. *)
Theorem predict_reindexable (h : heap) (X : DataFrame) (cols : list string)
  (return_std : bool) :
  _is_fitted (self h) = true ->
  _feature_columns (self h) = Some cols ->
  NoDup (df_columns X) ->
  incl cols (df_columns X) ->
  exists X' : DataFrame,
    pd.reindex X (Some cols) = Some X' /\
    df_columns X' = cols /\
    df_index X' = df_index X /\
    Forall2
      (fun r r' =>
         forall c, In c cols ->
           exists j, pd.position c (df_columns X) = Some j /\
                     pd.cell cols r' c = nth j r nan)
      (df_rows X) (df_rows X') /\
    predict (PyDataFrame X) return_std h
      = predict (PyDataFrame X') return_std h /\
    (forall e, fst (predict (PyDataFrame X) return_std h) = Err e ->
       exists origin, e = LibraryError origin).
Proof.
  intros Hf Hfc Hdistinct Hincl.
  destruct (reindex_distinct X cols (unique_NoDup _ Hdistinct)) as [X' Hre].
  exists X'. split; [exact Hre|].
  destruct (reindex_shape _ _ _ Hre) as [Hcols Hix].
  split; [exact Hcols|]. split; [exact Hix|].
  assert (Heq : predict (PyDataFrame X) return_std h
                = predict (PyDataFrame X') return_std h).
  { apply predict_after_reindex. now rewrite Hfc. }
  split; [|split].
  - assert (Hcell : forall r c, In c cols ->
              exists j, pd.position c (df_columns X) = Some j /\
                        pd.cell (df_columns X) r c = nth j r nan).
    { intros r c Hin.
      destruct (position_present c (df_columns X) (Hincl c Hin)) as [j Hj].
      exists j. split; [exact Hj|]. unfold pd.cell. now rewrite Hj. }
    rewrite (reindex_unique X cols (unique_NoDup _ Hdistinct)) in Hre.
    injection Hre as <-.
    destruct (pd.columns_eq (df_columns X) cols) eqn:E.
    + apply columns_eq_true in E. apply Forall2_same.
      intros r c Hin. destruct (Hcell r c Hin) as (j & Hj & Hval).
      exists j. split; [exact Hj|]. rewrite <- E. exact Hval.
    + cbn [df_rows]. apply Forall2_map_right.
      intros r c Hin. destruct (Hcell r c Hin) as (j & Hj & Hval).
      exists j. split; [exact Hj|].
      rewrite cell_reindexed by exact Hin. exact Hval.
  - exact Heq.
  - intros e. rewrite Heq.
    apply predict_aligned_errors; [exact Hf|].
    intros cols' Hfc'. congruence.
Qed.

Lemma position_missing (c : string) (cols : list string) :
  ~ In c cols -> pd.position c cols = None.
Proof.
  induction cols as [|c' cs IH]; simpl; [reflexivity|].
  intros Hn. destruct (String.eqb c c') eqn:E.
  - apply String.eqb_eq in E. subst. tauto.
  - rewrite IH by tauto. reflexivity.
Qed.

(** C1 (what the code does).  A fitted model is asked about a frame with
    distinct labels that lacks a recorded feature column [c].  The
    reindexing does not raise: it yields a frame with the recorded
    columns in which column [c] is NaN in every row, and [predict] goes on
    with it as if it had been given that frame.  The SchemaMismatch error
    is not raised; [predict] fails only if pandas or scikit-learn do. *)
Theorem predict_missing_column (h : heap) (X : DataFrame) (return_std : bool)
  (cols : list string) (c : string) :
  _is_fitted (self h) = true ->
  _feature_columns (self h) = Some cols ->
  In c cols -> ~ In c (df_columns X) ->
  pd.unique (df_columns X) = true ->
  exists X' : DataFrame,
    pd.reindex X (Some cols) = Some X' /\
    df_columns X' = cols /\
    Forall (fun r => pd.cell (df_columns X') r c = nan) (df_rows X') /\
    predict (PyDataFrame X) return_std h
      = predict (PyDataFrame X') return_std h /\
    fst (predict (PyDataFrame X) return_std h) <> Err SchemaMismatch.
Proof.
  intros Hf Hfc Hin Hmiss Hu.
  assert (Hne : pd.columns_eq (df_columns X) cols = false).
  { destruct (pd.columns_eq (df_columns X) cols) eqn:E; [|reflexivity].
    apply columns_eq_true in E. rewrite E in Hmiss. tauto. }
  pose proof (reindex_unique X cols Hu) as Hre. rewrite Hne in Hre.
  eexists. split; [exact Hre|]. split; [reflexivity|].
  assert (Heq : predict (PyDataFrame X) return_std h = predict (PyDataFrame
            {| df_columns := cols; df_index := df_index X;
               df_rows := map (fun r => map (pd.cell (df_columns X) r) cols)
                              (df_rows X) |}) return_std h).
  { apply predict_after_reindex. now rewrite Hfc. }
  split; [|split].
  - simpl. apply Forall_forall. intros r Hr.
    apply in_map_iff in Hr. destruct Hr as [r0 [<- _]].
    unfold pd.cell at 1.
    destruct (pd.position c cols) as [j|] eqn:Hpos; [|reflexivity].
    assert (Hgen : forall cs k, pd.position c cs = Some k ->
              nth k (map (pd.cell (df_columns X) r0) cs) nan = nan).
    { induction cs as [|c' cs IH]; simpl; [discriminate|].
      intros k. destruct (String.eqb c c') eqn:E.
      - intros [= <-]. apply String.eqb_eq in E. subst c'.
        unfold pd.cell. now rewrite (position_missing _ _ Hmiss).
      - destruct (pd.position c cs) as [k'|]; simpl; [|discriminate].
        intros [= <-]. now apply IH. }
    now apply Hgen.
  - exact Heq.
  - rewrite Heq. intros Habs.
    apply predict_aligned_errors in Habs.
    + destruct Habs as [o Ho]. discriminate Ho.
    + exact Hf.
    + simpl. intros cols' Hc'. congruence.
Qed.


(** ** Python slices and ranges on lists *)

Lemma slice_from {A : Type} (l : list A) (k : Z) :
  0 <= k -> Py.slice l (Some k) None = skipn (Z.to_nat k) l.
Proof.
  intros Hk. unfold Py.slice, Py.clip, Py.len.
  destruct (k <? 0) eqn:E; [apply Z.ltb_lt in E; lia|].
  destruct (Z.le_gt_cases k (Z.of_nat (length l))) as [Hle | Hgt].
  - rewrite Z.min_l by lia. apply firstn_all2.
    rewrite length_skipn. lia.
  - rewrite Z.min_r by lia. rewrite Nat2Z.id.
    rewrite !skipn_all2 by lia. now rewrite firstn_nil.
Qed.

Lemma slice_tail {A : Type} (w : list A) : Py.slice w (Some 1) None = tl w.
Proof. rewrite slice_from by lia. now destruct w. Qed.

Lemma slice_last {A : Type} (l : list A) (k : Z) :
  1 <= k <= Py.len l ->
  Py.slice l (Some (- k)) None = skipn (length l - Z.to_nat k) l.
Proof.
  unfold Py.slice, Py.clip, Py.len. intros Hk.
  destruct (- k <? 0) eqn:E; [|apply Z.ltb_ge in E; lia].
  rewrite Z.max_r by lia.
  replace (Z.to_nat (- k + Z.of_nat (length l)))
    with (length l - Z.to_nat k)%nat by lia.
  apply firstn_all2. rewrite length_skipn. lia.
Qed.

Lemma slice_window {A : Type} (l : list A) (a b : Z) :
  0 <= a <= b -> b <= Py.len l ->
  Py.slice l (Some a) (Some b)
  = firstn (Z.to_nat (b - a)) (skipn (Z.to_nat a) l).
Proof.
  unfold Py.slice, Py.clip, Py.len. intros Hab Hb.
  destruct (a <? 0) eqn:Ea; [apply Z.ltb_lt in Ea; lia|].
  destruct (b <? 0) eqn:Eb; [apply Z.ltb_lt in Eb; lia|].
  now rewrite !Z.min_l by lia.
Qed.

Lemma getitem_nonneg {A : Type} (l : list A) (i : Z) :
  0 <= i < Py.len l -> Py.getitem l i = nth_error l (Z.to_nat i).
Proof.
  unfold Py.getitem, Py.len. intros Hi.
  destruct (i <? 0) eqn:E; [apply Z.ltb_lt in E; lia|].
  replace (0 <=? i) with true by (symmetry; apply Z.leb_le; lia).
  replace (i <? Z.of_nat (length l)) with true
    by (symmetry; apply Z.ltb_lt; lia).
  reflexivity.
Qed.

Lemma getitem_last {A : Type} (l : list A) :
  l <> [] -> Py.getitem l (-1) = nth_error l (length l - 1).
Proof.
  intros Hl. unfold Py.getitem, Py.len.
  assert (0 < length l)%nat by (destruct l; simpl; [congruence | lia]).
  change (-1 <? 0) with true. cbv iota.
  replace (0 <=? -1 + Z.of_nat (length l)) with true
    by (symmetry; apply Z.leb_le; lia).
  replace (-1 + Z.of_nat (length l) <? Z.of_nat (length l)) with true
    by (symmetry; apply Z.ltb_lt; lia).
  cbn [andb]. f_equal. lia.
Qed.

Lemma range_length (a b : Z) : length (Py.range a b) = Z.to_nat (b - a).
Proof. unfold Py.range. now rewrite length_map, length_seq. Qed.

Lemma range_nth (a b : Z) (i : nat) :
  (i < Z.to_nat (b - a))%nat ->
  nth_error (Py.range a b) i = Some (a + Z.of_nat i).
Proof.
  intros Hi. unfold Py.range. rewrite nth_error_map, nth_error_seq.
  apply Nat.ltb_lt in Hi. now rewrite Hi.
Qed.

Lemma range_bounds (a b t : Z) : In t (Py.range a b) -> a <= t < b.
Proof.
  unfold Py.range. intros Hin. apply in_map_iff in Hin.
  destruct Hin as [k [<- Hk]]. apply in_seq in Hk. lia.
Qed.

Lemma lag_columns_length (lags : Z) :
  length (lag_columns lags) = Z.to_nat lags.
Proof.
  unfold lag_columns. rewrite length_map, range_length. f_equal. lia.
Qed.

Lemma lag_columns_nth (lags k : Z) :
  1 <= k <= lags ->
  nth_error (lag_columns lags) (Z.to_nat (k - 1))
  = Some ("lag" ++ Py.str k)%string.
Proof.
  intros Hk. unfold lag_columns. rewrite nth_error_map.
  rewrite range_nth by lia. cbn [option_map].
  now replace (1 + Z.of_nat (Z.to_nat (k - 1))) with k by lia.
Qed.

(** ** Frames built from rows of one width *)

Lemma width_uniform (data : matrix) (w : nat) :
  Forall (fun r => length r = w) data -> data <> [] -> pd.width data = w.
Proof.
  induction 1 as [|r rs Hr Hrs IH]; [congruence|]. intros _.
  simpl. destruct rs as [|r' rs'].
  - simpl. lia.
  - rewrite IH by discriminate. lia.
Qed.

Lemma pad_uniform (data : matrix) (w : nat) :
  Forall (fun r => length r = w) data -> map (pd.pad w) data = data.
Proof.
  induction 1 as [|r rs Hr Hrs IH]; [reflexivity|].
  simpl. rewrite IH. unfold pd.pad. rewrite Hr, Nat.sub_diag. simpl.
  now rewrite app_nil_r.
Qed.

Lemma make_DataFrame_uniform (data : matrix) (cols : list string)
  (ix : option Index) :
  Forall (fun r => length r = length cols) data ->
  index_length (default (RangeIndex 0 (Py.len data)) ix) = length data ->
  pd.make_DataFrame data cols ix
  = Some {| df_columns := cols;
            df_index := default (RangeIndex 0 (Py.len data)) ix;
            df_rows := data |}.
Proof.
  intros Hrows Hix. unfold pd.make_DataFrame.
  replace (match ix with Some i => i | None => RangeIndex 0 (Py.len data) end)
    with (default (RangeIndex 0 (Py.len data)) ix) by now destruct ix.
  rewrite Hix. destruct data as [|r rs].
  - reflexivity.
  - rewrite (width_uniform _ _ Hrows) by discriminate.
    rewrite !Nat.eqb_refl. simpl andb. cbv iota.
    now rewrite (pad_uniform _ _ Hrows).
Qed.

Lemma range_index_length (data : matrix) :
  index_length (RangeIndex 0 (Py.len data)) = length data.
Proof. unfold Py.len. simpl. lia. Qed.

(** ** The supervised data set *)

Lemma supervised_loop (vals : vector) (lags : Z) (ts : list Z)
  (X_rows : matrix) (y_rows : vector) :
  0 <= lags ->
  (forall t, In t ts -> lags <= t < Py.len vals) ->
  for_each_r ts
    (fun t '(X_rows, y_rows) =>
       let window := Py.slice vals (Some (t - lags)) (Some t) in
       rbind (library "vals[t]" (Py.getitem vals t))
             (fun v => Ok (X_rows ++ [rev window], y_rows ++ [v])))
    (X_rows, y_rows)
  = Ok (X_rows ++ map (row_at vals lags) ts, y_rows ++ map (value_at vals) ts).
Proof.
  intros Hl. revert X_rows y_rows.
  induction ts as [|t ts IH]; intros X_rows y_rows Hts.
  - simpl. now rewrite !app_nil_r.
  - assert (Ht : lags <= t < Py.len vals) by (apply Hts; now left).
    cbn [for_each_r].
    rewrite getitem_nonneg by lia.
    rewrite (nth_error_nth' vals nan) by (unfold Py.len in Ht; lia).
    cbn [library rbind Ok].
    rewrite slice_window by lia.
    replace (t - (t - lags)) with lags by lia.
    fold (Ok (A := matrix * vector)).
    rewrite IH by (intros t' Ht'; apply Hts; now right).
    unfold row_at, value_at. cbn [map].
    now rewrite <- !app_assoc.
Qed.

Lemma supervised_rows_eq (vals : vector) (lags : Z) :
  0 <= lags ->
  supervised_rows vals lags
  = Ok (map (row_at vals lags) (Py.range lags (Py.len vals)),
        map (value_at vals) (Py.range lags (Py.len vals))).
Proof.
  intros Hl. unfold supervised_rows.
  apply (supervised_loop vals lags _ [] [] Hl).
  intros t Ht. now apply range_bounds.
Qed.

Lemma row_at_length (vals : vector) (lags t : Z) :
  0 <= lags <= t -> t <= Py.len vals ->
  length (row_at vals lags t) = Z.to_nat lags.
Proof.
  unfold row_at, Py.len. intros H1 H2.
  rewrite length_rev, length_firstn, length_skipn. lia.
Qed.

Lemma row_at_nth (vals : vector) (lags t k : Z) :
  1 <= k <= lags -> lags <= t -> t <= Py.len vals ->
  nth_error (row_at vals lags t) (Z.to_nat (k - 1))
  = Some (value_at vals (t - k)).
Proof.
  unfold row_at, value_at, Py.len. intros Hk Ht Hn.
  rewrite nth_error_rev, length_firstn, length_skipn.
  replace (Z.to_nat (k - 1) <?
           Nat.min (Z.to_nat lags) (length vals - Z.to_nat (t - lags)))%nat
    with true by (symmetry; apply Nat.ltb_lt; lia).
  rewrite nth_error_firstn.
  replace (Nat.min (Z.to_nat lags) (length vals - Z.to_nat (t - lags))
           - S (Z.to_nat (k - 1)) <? Z.to_nat lags)%nat
    with true by (symmetry; apply Nat.ltb_lt; lia).
  rewrite nth_error_skipn.
  replace (Z.to_nat (t - lags) +
           (Nat.min (Z.to_nat lags) (length vals - Z.to_nat (t - lags))
            - S (Z.to_nat (k - 1))))%nat
    with (Z.to_nat (t - k)) by lia.
  apply nth_error_nth'. lia.
Qed.

Lemma index_from_length (ix : Index) (n : nat) (k : Z) :
  index_length ix = n -> 0 <= k ->
  index_length (index_from ix k) = (n - Z.to_nat k)%nat.
Proof.
  intros Hn Hk. destruct ix as [a b | st | ls]; simpl in *.
  - unfold Py.clip. destruct (k <? 0) eqn:E; [apply Z.ltb_lt in E; lia|]. lia.
  - rewrite slice_from by lia. rewrite length_skipn. lia.
  - rewrite slice_from by lia. rewrite length_skipn. lia.
Qed.

Lemma training_set_eq (series : Series) (lags : Z) :
  series_wf series -> 0 <= lags ->
  training_set series lags
  = Ok ({| df_columns := lag_columns lags;
           df_index :=
             RangeIndex 0 (Py.len (Py.range lags (Py.len (s_values series))));
           df_rows := map (row_at (s_values series) lags)
                          (Py.range lags (Py.len (s_values series))) |},
        {| s_index := index_from (s_index series) lags;
           s_values := map (value_at (s_values series))
                           (Py.range lags (Py.len (s_values series)));
           s_name := Some (name_or series "y") |}).
Proof.
  intros Hwf Hl. unfold training_set.
  rewrite supervised_rows_eq by exact Hl. cbn [rbind Ok].
  rewrite (make_DataFrame_uniform _ _ None).
  - cbn [library rbind Ok default]. unfold pd.make_Series.
    rewrite length_map, range_length.
    rewrite (index_from_length _ _ _ Hwf Hl).
    replace (Z.to_nat (Py.len (s_values series) - lags))
      with (length (s_values series) - Z.to_nat lags)%nat
      by (unfold Py.len; lia).
    rewrite Nat.eqb_refl. cbn [library rbind Ok].
    unfold Py.len at 1. now rewrite length_map.
  - apply Forall_forall. intros r Hr. apply in_map_iff in Hr.
    destruct Hr as [t [<- Ht]]. apply range_bounds in Ht.
    rewrite lag_columns_length. apply row_at_length; lia.
  - cbn [default]. apply range_index_length.
Qed.

(** C3. For a series of [n] values and [1 <= lags < n] the supervised
    data set has [n - lags] rows; the row for position [t] (from [lags]
    to [n - 1]) holds under [lag k] the value at position [t - k], for
    [k] from 1 to [lags], and its target is the value at position [t].
    For the series 1..5 and two lags the rows are (2,1) with target 3,
    (3,2) with target 4 and (4,3) with target 5. *)
Theorem supervised_training_rows :
  (forall (series : Series) (lags : Z),
     series_wf series ->
     1 <= lags < Py.len (s_values series) ->
     exists (X : DataFrame) (y : Series),
       training_set series lags = Ok (X, y) /\
       length (df_rows X) = Z.to_nat (Py.len (s_values series) - lags) /\
       length (s_values y) = Z.to_nat (Py.len (s_values series) - lags) /\
       forall t : Z,
         lags <= t < Py.len (s_values series) ->
         nth_error (s_values y) (Z.to_nat (t - lags))
           = Some (value_at (s_values series) t) /\
         exists row : list float,
           nth_error (df_rows X) (Z.to_nat (t - lags)) = Some row /\
           length row = Z.to_nat lags /\
           forall k : Z,
             1 <= k <= lags ->
             nth_error (df_columns X) (Z.to_nat (k - 1))
               = Some ("lag" ++ Py.str k)%string /\
             nth_error row (Z.to_nat (k - 1))
               = Some (value_at (s_values series) (t - k))) /\
  training_set Standin.ramp 2
  = Ok ({| df_columns := ["lag1"; "lag2"];
           df_index := RangeIndex 0 3;
           df_rows := [[2; 1]; [3; 2]; [4; 3]]%float |},
        {| s_index := RangeIndex 2 5;
           s_values := [3; 4; 5]%float;
           s_name := Some "y" |}).
Proof.
  split; [|reflexivity].
  intros series lags Hwf Hl.
  rewrite training_set_eq by (assumption || lia).
  eexists. eexists. split; [reflexivity|]. cbn [df_rows df_columns s_values].
  rewrite !length_map, range_length.
  split; [reflexivity|]. split; [reflexivity|].
  intros t Ht.
  assert (Hnth : nth_error (Py.range lags (Py.len (s_values series)))
                           (Z.to_nat (t - lags)) = Some t).
  { rewrite range_nth by lia. f_equal. lia. }
  split.
  - now rewrite nth_error_map, Hnth.
  - exists (row_at (s_values series) lags t). split; [|split].
    + now rewrite nth_error_map, Hnth.
    + apply row_at_length; lia.
    + intros k Hk. split.
      * now apply lag_columns_nth.
      * apply row_at_nth; lia.
Qed.

(** ** The future rows of [make_lag_features] *)

Lemma lag_loop (xs : list Z) (X_future : matrix) (window : list float) :
  fold_left
    (fun '(X_future, window) (_ : Z) =>
       (X_future ++ [rev window], Py.slice window (Some 1) None ++ [nan]))
    xs (X_future, window)
  = (X_future ++ map (fun i => rev (Nat.iter i slide window))
                     (seq 0 (length xs)),
     Nat.iter (length xs) slide window).
Proof.
  revert X_future window.
  induction xs as [|x xs IH]; intros X_future window.
  - simpl. now rewrite app_nil_r.
  - cbn [fold_left length]. rewrite slice_tail. fold (slide window).
    rewrite IH. rewrite <- app_assoc. f_equal.
    + cbn [seq map app]. change (Nat.iter 0 slide window) with window.
      do 2 f_equal.
      rewrite <- seq_shift, map_map. apply map_ext. intros i.
      now rewrite Nat.iter_succ_r.
    + now rewrite Nat.iter_succ_r.
Qed.

Lemma iter_slide (window : list float) (i : nat) :
  window <> [] ->
  Nat.iter i slide window
  = skipn i window ++ repeat nan (Nat.min i (length window)).
Proof.
  intros Hw. induction i as [|i IH].
  - simpl. now rewrite app_nil_r.
  - rewrite Nat.iter_succ, IH. unfold slide.
    destruct (Nat.lt_ge_cases i (length window)) as [Hlt | Hge].
    + rewrite !Nat.min_l by lia.
      assert (Hsk : exists a, skipn i window = a :: skipn (S i) window).
      { clear IH Hw. revert i Hlt.
        induction window as [|a w IHw]; intros i Hlt; [simpl in Hlt; lia|].
        destruct i as [|i]; [now exists a|].
        cbn [skipn]. apply IHw. simpl in Hlt. lia. }
      destruct Hsk as [a Ha]. rewrite Ha. cbn [tl app].
      rewrite <- app_assoc. f_equal.
      change [nan] with (repeat nan 1). rewrite <- repeat_app.
      f_equal. lia.
    + rewrite !Nat.min_r by lia.
      rewrite !skipn_all2 by lia. cbn [app].
      destruct (length window) as [|n] eqn:Hn.
      * destruct window; [congruence | discriminate].
      * cbn [repeat tl]. change [nan] with (repeat nan 1).
        rewrite <- repeat_app.
        replace (n + 1)%nat with (S n) by lia. reflexivity.
Qed.

Lemma lag_row_length (window : list float) (i : nat) :
  window <> [] -> length (lag_row window i) = length window.
Proof.
  intros Hw. unfold lag_row. rewrite length_rev, iter_slide by exact Hw.
  rewrite length_app, length_skipn, repeat_length. lia.
Qed.

Lemma lag_row_nth (window : list float) (i k : nat) :
  (k < length window)%nat ->
  nth_error (lag_row window i) k
  = Some (if (k <? i)%nat then nan
          else nth (length window - 1 - (k - i)) window nan).
Proof.
  intros Hk.
  assert (Hw : window <> []) by (destruct window; simpl in Hk; [lia | congruence]).
  unfold lag_row. rewrite iter_slide by exact Hw.
  rewrite rev_app_distr.
  assert (Hrr : rev (repeat nan (Nat.min i (length window)))
                = repeat nan (Nat.min i (length window))).
  { generalize (Nat.min i (length window)). intros m.
    induction m as [|m IHm]; [reflexivity|].
    cbn [repeat rev]. rewrite IHm. change [nan] with (repeat nan 1).
    rewrite <- repeat_app. replace (m + 1)%nat with (S m) by lia.
    reflexivity. }
  rewrite Hrr.
  destruct (k <? i)%nat eqn:E.
  - apply Nat.ltb_lt in E.
    rewrite nth_error_app1 by (rewrite repeat_length; lia).
    apply nth_error_repeat. lia.
  - apply Nat.ltb_ge in E.
    rewrite nth_error_app2 by (rewrite repeat_length; lia).
    rewrite repeat_length, Nat.min_l by lia.
    rewrite nth_error_rev, length_skipn.
    replace (k - i <? length window - i)%nat with true
      by (symmetry; apply Nat.ltb_lt; lia).
    rewrite nth_error_skipn.
    replace (i + (length window - i - S (k - i)))%nat
      with (length window - 1 - (k - i))%nat by lia.
    apply nth_error_nth'. lia.
Qed.

Lemma future_index_length (series : Series) (n_steps : Z) :
  index_length (future_index series n_steps) = Z.to_nat n_steps.
Proof.
  unfold future_index.
  destruct (s_index series) as [a b | stamps | ls]; simpl; try lia.
  destruct (infer_freq stamps) as [f|]; simpl; try lia.
  pose proof (date_range_length (last_stamp stamps) (S (Z.to_nat n_steps)) f)
    as Hlen.
  destruct (date_range (last_stamp stamps) (S (Z.to_nat n_steps)) f);
    simpl in *; lia.
Qed.

Lemma make_lag_features_eq (series : Series) (lags n_steps : Z) :
  series_wf series ->
  1 <= lags <= Py.len (s_values series) ->
  0 <= n_steps ->
  make_lag_features (PySeries series) lags n_steps None
  = Ok {| df_columns := lag_columns lags;
          df_index := future_index series n_steps;
          df_rows :=
            map (lag_row (skipn (length (s_values series) - Z.to_nat lags)
                                (s_values series)))
                (seq 0 (Z.to_nat n_steps)) |}.
Proof.
  intros Hwf Hl Hn. unfold make_lag_features.
  replace (lags <? 1) with false by (symmetry; apply Z.ltb_ge; lia).
  replace (Py.len (s_values series) <? lags) with false
    by (symmetry; apply Z.ltb_ge; lia).
  rewrite slice_last by lia. rewrite lag_loop, range_length.
  cbn [app]. replace (n_steps - 0) with n_steps by lia.
  set (window := skipn (length (s_values series) - Z.to_nat lags)
                       (s_values series)).
  assert (Hwlen : length window = Z.to_nat lags).
  { unfold window, Py.len in *. rewrite length_skipn. lia. }
  assert (Hw : window <> []).
  { intros E. rewrite E in Hwlen. simpl in Hwlen. lia. }
  assert (Hix :
    match s_index series,
          match s_index series, @None offset with
          | DatetimeIndex stamps, None => infer_freq stamps
          | _, _ => None
          end with
    | DatetimeIndex stamps, Some f =>
        rbind (library "series.index[-1]" (Py.getitem stamps (-1)))
          (fun start =>
             rbind (library "pd.date_range"
                      (pd_date_range start (n_steps + 1) f))
               (fun dates => Ok (DatetimeIndex (Py.slice dates (Some 1) None))))
    | _, _ => Ok (RangeIndex 0 n_steps)
    end = Ok (future_index series n_steps)).
  { unfold future_index. unfold series_wf in Hwf.
    destruct (s_index series) as [a b | stamps | ls]; try reflexivity.
    destruct (infer_freq stamps) as [f|]; try reflexivity.
    assert (Hst : stamps <> []).
    { intros E. subst stamps. simpl in Hwf. unfold Py.len in Hl. lia. }
    rewrite getitem_last by exact Hst.
    rewrite (nth_error_nth' stamps 0)
      by (destruct stamps; simpl; [congruence | lia]).
    cbn [library rbind Ok]. unfold pd_date_range.
    replace (n_steps + 1 <? 0) with false by (symmetry; apply Z.ltb_ge; lia).
    cbn [library rbind Ok]. rewrite slice_tail.
    replace (Z.to_nat (n_steps + 1)) with (S (Z.to_nat n_steps)) by lia.
    reflexivity. }
  rewrite Hix. cbn [rbind Ok].
  rewrite make_DataFrame_uniform.
  - reflexivity.
  - apply Forall_forall. intros r Hr. apply in_map_iff in Hr.
    destruct Hr as [i [<- _]]. fold (lag_row window i).
    rewrite lag_row_length by exact Hw.
    now rewrite lag_columns_length.
  - cbn [default]. rewrite length_map, length_seq.
    apply future_index_length.
Qed.

Lemma nth_skipn {A : Type} (l : list A) (m j : nat) (d : A) :
  (m + j < length l)%nat -> nth j (skipn m l) d = nth (m + j) l d.
Proof.
  intros Hj. apply nth_error_nth.
  rewrite nth_error_skipn. now apply nth_error_nth'.
Qed.

(** C4. For a series with at least [lags >= 1] observations and
    [n_steps >= 1], [make_lag_features] (no frequency passed) returns a
    frame of [n_steps] rows under the columns [lag1 .. lag<lags>].  Row 0
    is the last [lags] observed values, newest first.  In row [i] the
    slots [lag1 .. lag i] hold NaN and the slots after them hold observed
    values: no forecast enters the frame.  The index continues the dates
    of the series at the frequency inferred from them when the series has
    a DatetimeIndex and a frequency is found, and counts from 0 to
    [n_steps - 1] otherwise. *)
Theorem make_lag_features_rows (series : Series) (lags n_steps : Z) :
  series_wf series ->
  1 <= lags <= Py.len (s_values series) ->
  1 <= n_steps ->
  exists df : DataFrame,
    make_lag_features (PySeries series) lags n_steps None = Ok df /\
    length (df_rows df) = Z.to_nat n_steps /\
    (forall k : Z, 1 <= k <= lags ->
       nth_error (df_columns df) (Z.to_nat (k - 1))
       = Some ("lag" ++ Py.str k)%string) /\
    length (df_columns df) = Z.to_nat lags /\
    nth_error (df_rows df) 0
      = Some (rev (skipn (length (s_values series) - Z.to_nat lags)
                         (s_values series))) /\
    (forall i : nat, (i < Z.to_nat n_steps)%nat ->
       exists row : list float,
         nth_error (df_rows df) i = Some row /\
         length row = Z.to_nat lags /\
         forall k : nat, (k < Z.to_nat lags)%nat ->
           nth_error row k
           = Some (if (k <? i)%nat then nan
                   else value_at (s_values series)
                          (Py.len (s_values series) - 1
                           - Z.of_nat (k - i)))) /\
    index_length (df_index df) = Z.to_nat n_steps /\
    (forall (stamps : list timestamp) (f : offset),
       s_index series = DatetimeIndex stamps ->
       infer_freq stamps = Some f ->
       df_index df
       = DatetimeIndex
           (tl (date_range (last_stamp stamps) (S (Z.to_nat n_steps)) f))) /\
    ((forall stamps : list timestamp,
        s_index series = DatetimeIndex stamps -> infer_freq stamps = None) ->
     df_index df = RangeIndex 0 n_steps).
Proof.
  intros Hwf Hl Hn.
  rewrite make_lag_features_eq by (assumption || lia).
  eexists. split; [reflexivity|]. cbn [df_rows df_columns df_index].
  set (window := skipn (length (s_values series) - Z.to_nat lags)
                       (s_values series)).
  assert (Hwlen : length window = Z.to_nat lags).
  { unfold window, Py.len in *. rewrite length_skipn. lia. }
  assert (Hw : window <> []).
  { intros E. rewrite E in Hwlen. simpl in Hwlen. lia. }
  assert (Hrow : forall i, (i < Z.to_nat n_steps)%nat ->
            nth_error (map (lag_row window) (seq 0 (Z.to_nat n_steps))) i
            = Some (lag_row window i)).
  { intros i Hi. rewrite nth_error_map, nth_error_seq.
    apply Nat.ltb_lt in Hi. now rewrite Hi. }
  split; [now rewrite length_map, length_seq|].
  split; [intros k Hk; now apply lag_columns_nth|].
  split; [apply lag_columns_length|].
  split; [now rewrite Hrow by lia|].
  split.
  - intros i Hi. exists (lag_row window i).
    split; [now apply Hrow|].
    split; [now rewrite lag_row_length|].
    intros k Hk. rewrite lag_row_nth by lia.
    destruct (k <? i)%nat eqn:E; [reflexivity|].
    apply Nat.ltb_ge in E. f_equal.
    unfold value_at. rewrite Hwlen. unfold window.
    rewrite nth_skipn by (unfold Py.len in Hl; lia).
    f_equal. unfold Py.len in *. lia.
  - split; [apply future_index_length|].
    unfold future_index. split.
    + intros stamps f -> ->. reflexivity.
    + intros Hnone. destruct (s_index series) as [a b | stamps | ls];
        try reflexivity.
      now rewrite (Hnone stamps eq_refl).
Qed.

(** ** Which exceptions each function can raise *)

Lemma library_error {A : Type} (origin : string) (o : option A) (e : exn) :
  library origin o = Err e -> e = LibraryError origin.
Proof. destruct o; simpl; [discriminate | now intros [= <-]]. Qed.

Lemma for_each_errors {S A X : Type} (P : exn -> Prop) (xs : list X)
  (body : X -> A -> M S A) :
  (forall x acc s e s', body x acc s = (Err e, s') -> P e) ->
  forall acc s e s', for_each xs body acc s = (Err e, s') -> P e.
Proof.
  intros Hbody. induction xs as [|x xs IH]; intros acc s e s' Hrun.
  - discriminate Hrun.
  - cbn [for_each] in Hrun. unfold bind in Hrun.
    destruct (body x acc s) as [[e1 | acc1] s1] eqn:Hb.
    + inversion Hrun; subst. eapply Hbody; eauto.
    + eapply IH; eauto.
Qed.

Lemma for_each_r_errors {A X : Type} (P : exn -> Prop) (xs : list X)
  (body : X -> A -> result A) :
  (forall x acc e, body x acc = Err e -> P e) ->
  forall acc e, for_each_r xs body acc = Err e -> P e.
Proof.
  intros Hbody. induction xs as [|x xs IH]; intros acc e Hrun.
  - discriminate Hrun.
  - cbn [for_each_r] in Hrun. unfold rbind in Hrun.
    destruct (body x acc) as [e1 | acc1] eqn:Hb.
    + inversion Hrun; subst. eapply Hbody; eauto.
    + eapply IH; eauto.
Qed.

Lemma training_set_errors (series : Series) (lags : Z) (e : exn) :
  training_set series lags = Err e -> from_library e.
Proof.
  unfold training_set, supervised_rows.
  destruct (for_each_r _ _ _) as [e1 | [X_rows y_rows]] eqn:Hloop.
  - intros [= <-].
    revert Hloop. apply for_each_r_errors.
    intros t [Xr yr] e0. destruct (Py.getitem (s_values series) t);
      simpl; [discriminate|]. intros [= <-]. now eexists.
  - cbn [rbind].
    destruct (pd.make_DataFrame _ _ _); simpl;
      [|intros [= <-]; now eexists].
    destruct (pd.make_Series _ _ _); simpl;
      [discriminate | intros [= <-]; now eexists].
Qed.

Lemma fit_errors (X y : pyval) (h h' : heap) (e : exn) :
  fit X y h = (Err e, h') ->
  TypeMismatch e \/ e = LengthMismatch \/ from_library e.
Proof.
  unfold_method. unfold TypeMismatch, from_library, LengthMismatch.
  split_cases;
  simpl; intros [= <- _]; eauto.
Qed.

Lemma predict_errors (X : pyval) (return_std : bool) (h h' : heap) (e : exn) :
  predict X return_std h = (Err e, h') ->
  e = NotFitted \/ TypeMismatch e \/ e = SchemaMismatch \/ from_library e.
Proof.
  unfold_method. unfold TypeMismatch, from_library, NotFitted, SchemaMismatch.
  split_cases;
  simpl; intros [= <- _]; eauto 6.
Qed.

Lemma make_lag_features_errors (series : Series) (lags n_steps : Z)
  (freq : option offset) (e : exn) :
  make_lag_features (PySeries series) lags n_steps freq = Err e ->
  e = ValueError "lags must be >= 1" \/
  (e = TooShort /\ 1 <= lags /\ Py.len (s_values series) < lags) \/
  from_library e.
Proof.
  unfold make_lag_features.
  destruct (lags <? 1) eqn:E1; [intros [= <-]; now left|].
  destruct (Py.len (s_values series) <? lags) eqn:E2.
  - intros [= <-]. right; left. apply Z.ltb_ge in E1. apply Z.ltb_lt in E2.
    repeat split; assumption.
  - intros Hrun. right; right.
    match type of Hrun with
    | rbind ?ix _ = _ => destruct ix as [e1 | ix'] eqn:Hix
    end.
    + cbn [rbind] in Hrun. injection Hrun as <-.
      unfold library, rbind, pd_date_range, Ok, Err in Hix.
      repeat (cbn beta iota in Hix;
              match type of Hix with
              | context [match ?x with _ => _ end] =>
                  lazymatch x with
                  | context [match _ with _ => _ end] => fail
                  | _ => destruct x eqn:?
                  end
              end);
        cbn beta iota in Hix; try discriminate Hix;
        injection Hix as <-; now eexists.
    + cbn [rbind] in Hrun. revert Hrun.
      destruct (fold_left _ _ _) as [Xf w]. intros Hrun.
      apply library_error in Hrun. subst e. eexists. reflexivity.
Qed.

Lemma library_not_short (e : exn) : from_library e -> ~ insufficient_data e.
Proof. intros [o ->] [H | H]; discriminate H. Qed.

Lemma predict_not_short (X : pyval) (return_std : bool) (h h' : heap)
  (e : exn) :
  predict X return_std h = (Err e, h') -> ~ insufficient_data e.
Proof.
  intros Hp. apply predict_errors in Hp.
  destruct Hp as [-> | [[msg ->] | [-> | Hlib]]];
    try (intros [H | H]; discriminate H).
  now apply library_not_short.
Qed.

Lemma fit_not_short (X y : pyval) (h h' : heap) (e : exn) :
  fit X y h = (Err e, h') -> ~ insufficient_data e.
Proof.
  intros Hf. apply fit_errors in Hf.
  destruct Hf as [[msg ->] | [-> | Hlib]];
    try (intros [H | H]; discriminate H).
  now apply library_not_short.
Qed.

Lemma forecast_step_not_short (columns : list string) (x : Z)
  (acc : vector * vector * GaussianProcessProjection)
  (log log' : list event) (e : exn) :
  forecast_step columns x acc log = (Err e, log') -> ~ insufficient_data e.
Proof.
  destruct acc as [[preds window] model].
  unfold forecast_step, bind, lift, call, ret.
  destruct (pd.make_DataFrame [rev window] columns None) as [features|];
    cbn [library Ok Err];
    [|intros [= <- _]; apply library_not_short; now eexists].
  destruct (predict (PyDataFrame features) false
              {| self := model; calls := log |}) as [[e1 | p] h1] eqn:Hp.
  - intros [= <- _]. eapply predict_not_short; eauto.
  - destruct (iloc0 p); cbn [library Ok Err]; [discriminate|].
    intros [= <- _]. apply library_not_short. now eexists.
Qed.

(** C8. [project_with_autoregression] raises the InsufficientData error
    exactly when [len(series) <= lags].  It does so before anything else:
    no fitting call is made (the log is as it was) and there is no
    result.  When the series is longer, whatever exception may come out
    is not one about a short series. *)
Theorem project_insufficient_data (series : Series) (lags n_steps : Z)
  (gp_kwargs : option kwargs) (log : list event) :
  (Py.len (s_values series) <= lags ->
   project_with_autoregression series lags n_steps gp_kwargs log
   = (Err InsufficientData, log)) /\
  (forall (e : exn) (log' : list event),
     project_with_autoregression series lags n_steps gp_kwargs log
     = (Err e, log') ->
     insufficient_data e ->
     Py.len (s_values series) <= lags).
Proof.
  split.
  - intros Hlen. unfold project_with_autoregression.
    apply Z.leb_le in Hlen. now rewrite Hlen.
  - intros e log' Hrun Hshort.
    destruct (Z.le_gt_cases (Py.len (s_values series)) lags) as [|Hgt];
      [assumption|].
    exfalso. revert Hshort. unfold project_with_autoregression in Hrun.
    replace (Py.len (s_values series) <=? lags) with false in Hrun
      by (symmetry; apply Z.leb_gt; lia).
    unfold bind at 1 in Hrun. unfold lift at 1 in Hrun.
    destruct (training_set series lags) as [e1 | [X y]] eqn:Hts.
    { injection Hrun as <- _. apply library_not_short.
      eapply training_set_errors; eauto. }
    unfold bind at 1 in Hrun. unfold call at 1 in Hrun.
    destruct (fit (PyDataFrame X) (PySeries y) _) as [[e2 | u] h2] eqn:Hfit.
    { injection Hrun as <- _. eapply fit_not_short; eauto. }
    unfold bind at 1 in Hrun. unfold lift at 1 in Hrun.
    destruct (make_lag_features (PySeries series) lags n_steps None)
      as [e3 | X_future] eqn:Hm.
    { injection Hrun as <- _. apply make_lag_features_errors in Hm.
      destruct Hm as [-> | [[-> [_ Hlt]] | Hlib]].
      - intros [H | H]; discriminate H.
      - lia.
      - now apply library_not_short. }
    unfold bind at 1 in Hrun.
    destruct (for_each _ _ _ _) as [[e4 | [[preds w] m]] log4] eqn:Hloop.
    { injection Hrun as <- _. revert Hloop.
      apply (for_each_errors (fun e => ~ insufficient_data e)).
      intros x acc s e0 s'. apply forecast_step_not_short. }
    unfold lift in Hrun. injection Hrun as Hr _.
    apply library_error in Hr. subst e.
    apply library_not_short. now eexists.
Qed.

(** C10. With [lags >= 1], [make_lag_features] raises its short-series
    error exactly when [len(series) < lags].  A series of exactly [lags]
    values is accepted and gives a frame, while
    [project_with_autoregression] rejects the same series: the helper
    asks for less than the supervised construction does. *)
Theorem make_lag_features_weaker_precondition (series : Series)
  (lags n_steps : Z) (freq : option offset) (gp_kwargs : option kwargs)
  (log : list event) :
  1 <= lags ->
  (make_lag_features (PySeries series) lags n_steps freq = Err TooShort
   <-> Py.len (s_values series) < lags) /\
  (lags < Py.len (s_values series) ->
   make_lag_features (PySeries series) lags n_steps freq <> Err TooShort) /\
  (Py.len (s_values series) = lags ->
   series_wf series -> 0 <= n_steps ->
   (exists df : DataFrame,
      make_lag_features (PySeries series) lags n_steps None = Ok df /\
      length (df_rows df) = Z.to_nat n_steps) /\
   project_with_autoregression series lags n_steps gp_kwargs log
   = (Err InsufficientData, log)).
Proof.
  intros Hl.
  assert (Hiff : make_lag_features (PySeries series) lags n_steps freq
                 = Err TooShort <-> Py.len (s_values series) < lags).
  { split.
    - intros Hrun. apply make_lag_features_errors in Hrun.
      destruct Hrun as [H | [[_ [_ Hlt]] | [o H]]];
        [discriminate H | exact Hlt | discriminate H].
    - intros Hlt. unfold make_lag_features.
      replace (lags <? 1) with false by (symmetry; apply Z.ltb_ge; lia).
      apply Z.ltb_lt in Hlt. now rewrite Hlt. }
  split; [exact Hiff|]. split.
  - intros Hgt Habs. apply Hiff in Habs. lia.
  - intros Heq Hwf Hn. split.
    + rewrite make_lag_features_eq by (assumption || lia).
      eexists. split; [reflexivity|].
      cbn [df_rows]. now rewrite length_map, length_seq.
    + unfold project_with_autoregression.
      replace (Py.len (s_values series) <=? lags) with true
        by (symmetry; apply Z.leb_le; lia).
      reflexivity.
Qed.

(** ** The autoregressive rollout *)

Lemma forecast_step_eq (columns : list string) (x : Z)
  (preds window : vector) (model : GaussianProcessProjection)
  (log : list event) :
  forecast_step columns x (preds, window, model) log
  = match one_step model columns (rev window) with
    | inl e => (inl e, log)
    | inr yhat => (inr (preds ++ [yhat], tl window ++ [yhat], model), log)
    end.
Proof.
  unfold forecast_step, one_step, bind, lift, call, ret.
  destruct (pd.make_DataFrame [rev window] columns None) as [features|];
    cbn [library rbind Ok Err]; [|reflexivity].
  rewrite predict_reads_only. cbn [self calls fst].
  destruct (fst (predict (PyDataFrame features) false
                   {| self := model; calls := [] |})) as [e | p];
    cbn [rbind]; [reflexivity|].
  destruct (iloc0 p); cbn [library Ok Err]; [|reflexivity].
  now rewrite slice_tail.
Qed.

Lemma forecast_loop (columns : list string) (xs : list Z)
  (model : GaussianProcessProjection) (log : list event) :
  forall preds window : vector,
    match rollout (one_step model columns) (length xs) window with
    | inl e =>
        for_each xs (forecast_step columns) (preds, window, model) log
        = (inl e, log)
    | inr ps =>
        length ps = length xs /\
        exists window' : vector,
          for_each xs (forecast_step columns) (preds, window, model) log
          = (Ok (preds ++ ps, window', model), log)
    end.
Proof.
  induction xs as [|x xs IH]; intros preds window.
  - simpl. split; [reflexivity|]. exists window. now rewrite app_nil_r.
  - cbn [length rollout for_each]. unfold bind.
    rewrite forecast_step_eq.
    destruct (one_step model columns (rev window)) as [e | yhat];
      cbn [rbind]; cbv beta iota; [reflexivity|].
    specialize (IH (preds ++ [yhat]) (tl window ++ [yhat])).
    destruct (rollout (one_step model columns) (length xs)
                (tl window ++ [yhat])) as [e | ps]; cbn [rbind Ok].
    + exact IH.
    + destruct IH as [Hlen [w' Hw']]. split; [simpl; lia|].
      exists w'.
      replace (preds ++ yhat :: ps) with ((preds ++ [yhat]) ++ ps)
        by now rewrite <- app_assoc.
      exact Hw'.
Qed.

(** C2. For a series with [len(series) > lags >= 1],
    [project_with_autoregression] builds the training set, fits a fresh
    model on it (an exception of [fit] ends the call), and then forecasts
    as the specification says: starting from the last [lags] observed
    values, [n_steps] times it predicts from the window newest first,
    appends the prediction and slides the window.  A failing prediction
    ends the call with that exception; otherwise the result holds the
    [n_steps] predictions under the index of the frame that
    [make_lag_features] gives for the same arguments. *)
Theorem project_rollout (series : Series) (lags n_steps : Z)
  (gp_kwargs : option kwargs) (log : list event) :
  series_wf series ->
  1 <= lags < Py.len (s_values series) ->
  0 <= n_steps ->
  exists (X : DataFrame) (y : Series) (X_future : DataFrame),
    training_set series lags = Ok (X, y) /\
    make_lag_features (PySeries series) lags n_steps None = Ok X_future /\
    match call (construct (default no_kwargs gp_kwargs))
               (fit (PyDataFrame X) (PySeries y)) log with
    | (inl e, log') =>
        project_with_autoregression series lags n_steps gp_kwargs log
        = (inl e, log')
    | (inr (_, model), log') =>
        match rollout (one_step model (df_columns X)) (Z.to_nat n_steps)
                (skipn (length (s_values series) - Z.to_nat lags)
                       (s_values series)) with
        | inl e =>
            project_with_autoregression series lags n_steps gp_kwargs log
            = (inl e, log')
        | inr preds =>
            length preds = Z.to_nat n_steps /\
            project_with_autoregression series lags n_steps gp_kwargs log
            = (Ok {| s_index := df_index X_future;
                     s_values := preds;
                     s_name := Some (name_or series "gp_forecast") |},
               log')
        end
    end.
Proof.
  intros Hwf Hl Hn.
  eexists. eexists. eexists.
  split; [apply training_set_eq; assumption || lia|].
  split; [apply make_lag_features_eq; assumption || lia|].
  unfold project_with_autoregression.
  replace (Py.len (s_values series) <=? lags) with false
    by (symmetry; apply Z.leb_gt; lia).
  rewrite training_set_eq by (assumption || lia).
  rewrite make_lag_features_eq by (assumption || lia).
  rewrite slice_last by lia.
  unfold bind, lift, Ok. cbv beta iota.
  destruct (call _ _ log) as [[e | [u model]] log1]; [reflexivity|].
  cbn [df_columns df_index].
  pose proof (forecast_loop (lag_columns lags) (Py.range 0 n_steps) model log1
                [] (skipn (length (s_values series) - Z.to_nat lags)
                          (s_values series))) as Hloop.
  rewrite range_length in Hloop.
  replace (n_steps - 0) with n_steps in Hloop by lia.
  destruct (rollout _ _ _) as [e | preds].
  - match goal with
    | |- context [for_each ?a ?b ?c ?d] =>
        assert (Hrun : for_each a b c d = (inl e, log1)) by exact Hloop;
        rewrite Hrun
    end.
    reflexivity.
  - destruct Hloop as [Hlen [w' Hw']]. split; [exact Hlen|].
    match goal with
    | |- context [for_each ?a ?b ?c ?d] =>
        assert (Hrun : for_each a b c d = (inr (preds, w', model), log1))
          by exact Hw';
        rewrite Hrun
    end.
    unfold lift, pd.make_Series.
    rewrite Hlen, future_index_length, Nat.eqb_refl. reflexivity.
Qed.

(** ** What a call of [fit] leaves behind *)

Lemma ravel_reshape_column (v : vector) : ravel (reshape_column v) = v.
Proof.
  unfold ravel, reshape_column. induction v as [|x v IH]; [reflexivity|].
  simpl. now rewrite IH.
Qed.

(** X1. When [fit] returns normally, its arguments were a DataFrame and a
    Series of equal length, the object is marked fitted, it has recorded
    the columns of the DataFrame in their order, it holds a regressor,
    and its kernel, [normalize_y], [n_restarts_optimizer] and [alpha] are
    those it had before. *)
Theorem fit_success_state (X y : pyval) (h h' : heap) :
  fit X y h = (Ok tt, h') ->
  exists (Xd : DataFrame) (ys : Series),
    X = PyDataFrame Xd /\ y = PySeries ys /\
    length (df_rows Xd) = length (s_values ys) /\
    _is_fitted (self h') = true /\
    _feature_columns (self h') = Some (df_columns Xd) /\
    _gpr (self h') <> None /\
    same_settings (self h) (self h').
Proof.
  unfold_method. unfold same_settings. split_cases.
  all: intros Heq; try discriminate Heq.
  all: injection Heq as <-; exists d, s; simpl.
  all: repeat split; try congruence.
  all: match goal with
       | H : negb (_ =? _) = false |- _ =>
           apply negb_false_iff, Z.eqb_eq in H; unfold Py.len in H; lia
       end.
Qed.

(** X3. A successful [fit] makes these fitting calls and no other, in this
    order: the feature scaler on the values of [X], the target scaler on
    the targets as one column when [normalize_y] is set (and not at all
    otherwise), and the regressor on the scaled features.  The regressor
    is a new one built from the object's kernel, [alpha] and restarts with
    its own normalisation off; its targets are the raw values of [y] when
    [normalize_y] is off and the scaled ones otherwise. *)
Theorem fit_success_calls (Xd : DataFrame) (ys : Series) (h h' : heap) :
  fit (PyDataFrame Xd) (PySeries ys) h = (Ok tt, h') ->
  exists (Xs : matrix) (targets : vector),
    fst (fit_transform (_scaler_X (self h)) (df_rows Xd)) = Some Xs /\
    (normalize_y (self h) = false -> targets = s_values ys) /\
    (normalize_y (self h) = true ->
     exists (sy : scaler) (T : matrix),
       _scaler_y (self h) = Some sy /\
       fst (fit_transform sy (reshape_column (s_values ys))) = Some T /\
       targets = ravel T) /\
    calls h'
    = calls h
      ++ FitScaler (df_rows Xd)
         :: (if normalize_y (self h)
             then [FitScaler (reshape_column (s_values ys))]
             else [])
      ++ [FitRegressor Xs targets] /\
    _gpr (self h')
    = Some (snd (gpr_fit
                   (GaussianProcessRegressor (kernel (self h)) (alpha (self h))
                      (n_restarts_optimizer (self h)) false)
                   Xs targets)).
Proof.
  unfold_method. split_cases.
  all: intros Heq; try discriminate Heq.
  all: injection Heq as <-; simpl.
  all: match goal with
       | Hg : gpr_fit _ ?Xs ?t = _ |- _ => exists Xs, t; rewrite Hg
       end.
  all: split; [reflexivity|].
  all: rewrite <- ?app_assoc; simpl.
  - split; [discriminate|]. split; [|split; reflexivity].
    intros _.
    match goal with
    | Hs : fit_transform ?sy (reshape_column _) = (Some ?T, _) |- _ =>
        exists sy, T; rewrite Hs
    end.
    repeat split; reflexivity.
  - split; [intros _; apply ravel_reshape_column|].
    split; [discriminate|]. split; reflexivity.
Qed.


(** ** An invariant of the objects *)

Lemma init_consistent (k : option Kernel) (ny : bool) (nr : Z) (a : float) :
  consistent (__init__ k ny nr a).
Proof.
  unfold consistent, __init__. simpl. split.
  - destruct ny; split; congruence.
  - discriminate.
Qed.

Lemma fit_consistent (X y : pyval) (h : heap) :
  consistent (self h) -> consistent (self (snd (fit X y h))).
Proof.
  unfold consistent. intros [Hs Hf]. unfold_method. split_cases.
  all: simpl; intuition congruence.
Qed.

Lemma reachable_consistent (h : heap) : reachable h -> consistent (self h).
Proof.
  induction 1 as [k ny nr a log | h h' X y r _ IH Hfit | h h' X rs r _ IH Hp].
  - apply init_consistent.
  - pose proof (fit_consistent X y h IH) as Hc. now rewrite Hfit in Hc.
  - rewrite predict_reads_only in Hp. now inversion Hp; subst.
Qed.

(** X4. On every object reached from the constructor through calls of [fit]
    and [predict], whatever their outcome, a target scaler exists exactly
    when [normalize_y] is set, and a fitted object has a regressor and
    recorded columns.  So neither method ever calls a method of [None]:
    the exceptions out of [fit] and [predict] never come from a missing
    scaler or regressor. *)
Theorem reachable_attributes_present (h : heap) :
  reachable h ->
  consistent (self h) /\
  (forall (X y : pyval) (e : exn) (h' : heap),
     fit X y h = (Err e, h') ->
     e <> LibraryError "NoneType.fit_transform" /\
     e <> LibraryError "NoneType.fit") /\
  (forall (X : pyval) (return_std : bool) (e : exn),
     fst (predict X return_std h) = Err e ->
     e <> LibraryError "NoneType.predict" /\
     e <> LibraryError "NoneType.inverse_transform").
Proof.
  intros Hr. pose proof (reachable_consistent h Hr) as Hc.
  split; [exact Hc|]. destruct Hc as [Hs Hf]. split.
  - intros X y e h'. unfold_method. split_cases.
    all: intros Heq; try discriminate Heq.
    all: injection Heq as <- _.
    all: try (split; discriminate).
    all: exfalso; intuition congruence.
  - intros X rs e. unfold_method. split_cases.
    all: simpl; intros Heq; try discriminate Heq.
    all: injection Heq as <-.
    all: try (split; discriminate).
    all: exfalso;
      repeat match goal with
             | H : negb _ = false |- _ => apply negb_false_iff in H
             end;
      intuition congruence.
Qed.

(** ** The exceptions of [predict] *)

Lemma reindex_none (X : DataFrame) (fc : option (list string)) :
  pd.reindex X fc = None <->
  exists cols, fc = Some cols /\ df_columns X <> cols /\
               pd.unique (df_columns X) = false.
Proof.
  unfold pd.reindex. destruct fc as [cols|].
  - destruct (pd.columns_eq (df_columns X) cols) eqn:E.
    + apply columns_eq_true in E. split; [discriminate|].
      intros (c & [= <-] & Hne & _). congruence.
    + assert (Hne : df_columns X <> cols).
      { intros Heq. apply columns_eq_true in Heq. congruence. }
      destruct (pd.unique (df_columns X)); split; try discriminate;
        try reflexivity.
      * intros (c & _ & _ & Hu). discriminate Hu.
      * intros _. now exists cols.
  - split; [discriminate|]. intros (c & Hc & _). discriminate Hc.
Qed.

Lemma predict_cases (X : pyval) (return_std : bool) (h : heap) :
  (_is_fitted (self h) = false /\
   fst (predict X return_std h) = Err NotFitted) \/
  (_is_fitted (self h) = true /\ is_DataFrame X = false /\
   fst (predict X return_std h)
   = Err (TypeError "X_future must be a pandas DataFrame")) \/
  (_is_fitted (self h) = true /\
   exists Xd, X = PyDataFrame Xd /\
     pd.reindex Xd (_feature_columns (self h)) = None /\
     fst (predict X return_std h) = Err SchemaMismatch) \/
  (_is_fitted (self h) = true /\
   exists Xd X', X = PyDataFrame Xd /\
     pd.reindex Xd (_feature_columns (self h)) = Some X' /\
     forall e, fst (predict X return_std h) = Err e -> from_library e).
Proof.
  destruct (_is_fitted (self h)) eqn:Hf.
  - right. destruct X as [Xd | s | a |].
    2-4: left; repeat split; unfold predict, bind, this; simpl;
         now rewrite Hf.
    right. destruct (pd.reindex Xd (_feature_columns (self h))) as [X'|] eqn:Hre.
    + right. split; [reflexivity|]. exists Xd, X'.
      split; [reflexivity|]. split; [exact Hre|].
      intros e. rewrite (predict_after_reindex _ _ _ _ Hre).
      apply predict_aligned_errors; [exact Hf|].
      intros cols Hfc. rewrite Hfc in Hre. now apply reindex_shape in Hre.
    + left. split; [reflexivity|]. exists Xd.
      split; [reflexivity|]. split; [exact Hre|].
      unfold predict, bind, this. simpl. rewrite Hf. simpl.
      apply reindex_none in Hre. destruct Hre as (cols & Hfc & Hne & Hu).
      assert (Hre : pd.reindex Xd (Some cols) = None).
      { apply reindex_none. now exists cols. }
      rewrite Hfc. unfold columns_differ.
      destruct (pd.columns_eq (df_columns Xd) cols) eqn:E.
      * apply columns_eq_true in E. congruence.
      * simpl. rewrite Hre. reflexivity.
  - left. split; [reflexivity|]. now rewrite predict_unfitted.
Qed.

(** X5. The three exceptions [predict] raises itself, each with the exact
    condition: the NotFitted error when the fitted flag is off, whatever
    the argument; a TypeError when the object is fitted and the argument
    is not a DataFrame; the SchemaMismatch error when the object is
    fitted and the argument is a DataFrame whose labels differ from the
    recorded columns and repeat a label. *)
Theorem predict_own_exceptions (X : pyval) (return_std : bool) (h : heap) :
  (fst (predict X return_std h) = Err NotFitted
   <-> _is_fitted (self h) = false) /\
  ((exists e, TypeMismatch e /\ fst (predict X return_std h) = Err e)
   <-> _is_fitted (self h) = true /\ is_DataFrame X = false) /\
  (fst (predict X return_std h) = Err SchemaMismatch
   <-> _is_fitted (self h) = true /\
       exists (Xd : DataFrame) (cols : list string),
         X = PyDataFrame Xd /\
         _feature_columns (self h) = Some cols /\
         df_columns Xd <> cols /\
         pd.unique (df_columns Xd) = false).
Proof.
  destruct (predict_cases X return_std h)
    as [[Hf Hp] | [(Hf & HX & Hp) | [(Hf & Xd & -> & Hre & Hp)
                                    | (Hf & Xd & X' & -> & Hre & Hp)]]].
  - rewrite Hp. split; [tauto|]. split.
    + split; [|intros [Ht _]; congruence].
      intros (e & [msg ->] & He). discriminate He.
    + split; [discriminate|]. intros [Ht _]. congruence.
  - rewrite Hp. split; [split; [discriminate | congruence]|]. split.
    + split; [tauto|]. intros _. eexists. split; [now eexists | reflexivity].
    + split; [discriminate|].
      intros (_ & Xd & cols & -> & _). discriminate HX.
  - rewrite Hp. split; [split; [discriminate | congruence]|]. split.
    + split; [|intros [_ HX]; discriminate HX].
      intros (e & [msg ->] & He). discriminate He.
    + split; [|reflexivity]. intros _. split; [exact Hf|].
      apply reindex_none in Hre. destruct Hre as (cols & Hfc & Hne & Hu).
      now exists Xd, cols.
  - assert (Hnot : forall e, fst (predict (PyDataFrame Xd) return_std h) = Err e ->
                     ~ from_library e -> False) by (intros e He Hn; eauto).
    split; [|split].
    + split; [|congruence]. intros He. exfalso.
      apply (Hnot _ He). intros [o Ho]. discriminate Ho.
    + split; [|intros [_ HX]; discriminate HX].
      intros (e & [msg ->] & He). exfalso.
      apply (Hnot _ He). intros [o Ho]. discriminate Ho.
    + split.
      * intros He. exfalso. apply (Hnot _ He). intros [o Ho]. discriminate Ho.
      * intros (_ & Xd' & cols & [= <-] & Hfc & Hne & Hu). exfalso.
        assert (Hnone : pd.reindex Xd (_feature_columns (self h)) = None).
        { apply reindex_none. now exists cols. }
        congruence.
Qed.

(** ** What [predict] returns *)

Lemma make_Series_some (data : vector) (ix : Index) (name : option string)
  (s : Series) :
  pd.make_Series data ix name = Some s ->
  s_index s = ix /\ s_values s = data /\ s_name s = name /\
  length data = index_length ix.
Proof.
  unfold pd.make_Series.
  destruct (Nat.eqb (length data) (index_length ix)) eqn:E; [|discriminate].
  intros [= <-]. apply Nat.eqb_eq in E. now repeat split.
Qed.

Lemma reindex_index (X X' : DataFrame) (fc : option (list string)) :
  pd.reindex X fc = Some X' -> df_index X' = df_index X.
Proof.
  destruct fc as [cols|].
  - intros Hre. now apply reindex_shape in Hre.
  - now intros [= <-].
Qed.

Lemma predict_shape (X : DataFrame) (return_std : bool) (h : heap) :
  match fst (predict (PyDataFrame X) return_std h) with
  | inl _ => True
  | inr (Point y) =>
      return_std = false /\ labelled_like X "gp_projection" y
  | inr (WithStd y sd) =>
      return_std = true /\
      labelled_like X "gp_projection" y /\ labelled_like X "gp_std" sd
  end.
Proof.
  unfold_method. unfold labelled_like. split_cases.
  all: try exact I.
  all: repeat match goal with
              | H : pd.make_Series _ _ _ = Some _ |- _ =>
                  apply make_Series_some in H;
                  destruct H as (? & ? & ? & ?)
              | H : pd.reindex _ _ = Some _ |- _ =>
                  apply reindex_index in H
              end.
  all: repeat split; congruence.
Qed.

(** X6. What [predict] returns on success carries the index of the query
    frame, one value per index entry, under the name [gp_projection];
    with [return_std] it is a pair whose second series has the same index
    and length under the name [gp_std], and without it a single series. *)
Theorem predict_output_shape (X : DataFrame) (return_std : bool)
  (h h' : heap) (p : prediction) :
  predict (PyDataFrame X) return_std h = (Ok p, h') ->
  match p with
  | Point y => return_std = false /\ labelled_like X "gp_projection" y
  | WithStd y sd =>
      return_std = true /\
      labelled_like X "gp_projection" y /\ labelled_like X "gp_std" sd
  end.
Proof.
  intros Hrun. pose proof (predict_shape X return_std h) as Hall.
  now rewrite Hrun in Hall.
Qed.

(** X7. [return_std] does not change the projection: the first series of the
    pair returned with [return_std=True] is the series returned without
    it; every exception without it is raised with it too; and when the
    call without it succeeds, the call with it returns that projection
    or fails building the deviation series. *)
Theorem return_std_keeps_projection (X : pyval) (h : heap) :
  (forall y sd : Series,
     fst (predict X true h) = Ok (WithStd y sd) ->
     fst (predict X false h) = Ok (Point y)) /\
  (forall y : Series,
     fst (predict X false h) = Ok (Point y) ->
     (exists sd : Series, fst (predict X true h) = Ok (WithStd y sd)) \/
     fst (predict X true h) = Err (LibraryError "pd.Series")) /\
  (forall e : exn,
     fst (predict X false h) = Err e ->
     fst (predict X true h) = Err e).
Proof.
  unfold_method. split_cases.
  all: repeat split; simpl; intros; try discriminate; try congruence.
  all: try (right; reflexivity).
  all: left; eexists;
    match goal with H : inr _ = inr _ |- _ => injection H as <- end;
    reflexivity.
Qed.

(** ** [make_lag_features] on all its arguments *)

Lemma rev_repeat {A : Type} (a : A) (n : nat) : rev (repeat a n) = repeat a n.
Proof.
  induction n as [|n IH]; [reflexivity|].
  cbn [repeat rev]. rewrite IH. change [a] with (repeat a 1).
  rewrite <- repeat_app. now replace (n + 1)%nat with (S n) by lia.
Qed.

Lemma future_index_with_length (series : Series) (n_steps : Z)
  (freq : option offset) :
  index_length (future_index_with series n_steps freq) = Z.to_nat n_steps.
Proof.
  unfold future_index_with.
  destruct (s_index series) as [a b | stamps | ls]; simpl; try lia.
  destruct (match freq with Some f => Some f | None => infer_freq stamps end)
    as [f|]; simpl; try lia.
  pose proof (date_range_length (last_stamp stamps) (S (Z.to_nat n_steps)) f)
    as Hlen.
  destruct (date_range (last_stamp stamps) (S (Z.to_nat n_steps)) f);
    simpl in *; lia.
Qed.

Lemma last_window_length (series : Series) (lags : Z) :
  1 <= lags <= Py.len (s_values series) ->
  length (last_window series lags) = Z.to_nat lags /\
  last_window series lags <> [].
Proof.
  intros Hl. unfold last_window, Py.len in *.
  assert (Hlen : length (skipn (length (s_values series) - Z.to_nat lags)
                          (s_values series)) = Z.to_nat lags)
    by (rewrite length_skipn; lia).
  split; [exact Hlen|]. intros E. rewrite E in Hlen. simpl in Hlen. lia.
Qed.

Lemma make_lag_features_any_freq (series : Series) (lags n_steps : Z)
  (freq : option offset) :
  series_wf series ->
  1 <= lags <= Py.len (s_values series) ->
  (forall stamps, s_index series = DatetimeIndex stamps -> 0 <= n_steps) ->
  make_lag_features (PySeries series) lags n_steps freq
  = Ok {| df_columns := lag_columns lags;
          df_index := future_index_with series n_steps freq;
          df_rows := map (lag_row (last_window series lags))
                         (seq 0 (Z.to_nat n_steps)) |}.
Proof.
  intros Hwf Hl Hn. unfold make_lag_features.
  replace (lags <? 1) with false by (symmetry; apply Z.ltb_ge; lia).
  replace (Py.len (s_values series) <? lags) with false
    by (symmetry; apply Z.ltb_ge; lia).
  rewrite slice_last by lia. rewrite lag_loop, range_length.
  cbn [app]. replace (n_steps - 0) with n_steps by lia.
  fold (last_window series lags).
  destruct (last_window_length series lags Hl) as [Hwlen Hw].
  assert (Hix :
    match s_index series,
          match s_index series, freq with
          | DatetimeIndex stamps, None => infer_freq stamps
          | _, _ => freq
          end with
    | DatetimeIndex stamps, Some f =>
        rbind (library "series.index[-1]" (Py.getitem stamps (-1)))
          (fun start =>
             rbind (library "pd.date_range"
                      (pd_date_range start (n_steps + 1) f))
               (fun dates => Ok (DatetimeIndex (Py.slice dates (Some 1) None))))
    | _, _ => Ok (RangeIndex 0 n_steps)
    end = Ok (future_index_with series n_steps freq)).
  { unfold future_index_with. unfold series_wf in Hwf.
    destruct (s_index series) as [a b | stamps | ls];
      try (now destruct freq).
    specialize (Hn stamps eq_refl).
    assert (Hst : stamps <> []).
    { intros E. subst stamps. simpl in Hwf. unfold Py.len in Hl. lia. }
    assert (Hdates : forall f,
      rbind (library "series.index[-1]" (Py.getitem stamps (-1)))
        (fun start =>
           rbind (library "pd.date_range"
                    (pd_date_range start (n_steps + 1) f))
             (fun dates => Ok (DatetimeIndex (Py.slice dates (Some 1) None))))
      = Ok (DatetimeIndex
              (tl (date_range (last_stamp stamps) (S (Z.to_nat n_steps)) f)))).
    { intros f. rewrite getitem_last by exact Hst.
      rewrite (nth_error_nth' stamps 0)
        by (destruct stamps; simpl; [congruence | lia]).
      cbn [library rbind Ok]. unfold pd_date_range.
      replace (n_steps + 1 <? 0) with false
        by (symmetry; apply Z.ltb_ge; lia).
      cbn [library rbind Ok]. rewrite slice_tail.
      replace (Z.to_nat (n_steps + 1)) with (S (Z.to_nat n_steps)) by lia.
      reflexivity. }
    destruct freq as [f0|]; [apply Hdates|].
    destruct (infer_freq stamps) as [f|]; [apply Hdates | reflexivity]. }
  rewrite Hix. cbn [rbind Ok].
  rewrite make_DataFrame_uniform.
  - reflexivity.
  - apply Forall_forall. intros r Hr. apply in_map_iff in Hr.
    destruct Hr as [i [<- _]]. fold (lag_row (last_window series lags) i).
    rewrite lag_row_length by exact Hw.
    now rewrite lag_columns_length.
  - cbn [default]. rewrite length_map, length_seq.
    apply future_index_with_length.
Qed.

Lemma make_DataFrame_some (data : matrix) (cols : list string)
  (ix : option Index) (df : DataFrame) :
  pd.make_DataFrame data cols ix = Some df ->
  Forall (fun r => length r = length cols) data ->
  df_columns df = cols /\ df_rows df = data.
Proof.
  unfold pd.make_DataFrame. cbv zeta. intros Hmk Huni.
  destruct data as [|r rs].
  - destruct (Nat.eqb _ 0); [|discriminate]. now injection Hmk as <-.
  - rewrite (width_uniform _ _ Huni) in Hmk by discriminate.
    rewrite (pad_uniform _ _ Huni) in Hmk.
    destruct (_ && _); [|discriminate]. now injection Hmk as <-.
Qed.

Lemma make_lag_features_ok (series : Series) (lags n_steps : Z)
  (freq : option offset) (df : DataFrame) :
  make_lag_features (PySeries series) lags n_steps freq = Ok df ->
  1 <= lags <= Py.len (s_values series) /\
  df_columns df = lag_columns lags /\
  df_rows df = map (lag_row (last_window series lags))
                   (seq 0 (Z.to_nat n_steps)).
Proof.
  unfold make_lag_features.
  destruct (lags <? 1) eqn:E1; [discriminate|].
  destruct (Py.len (s_values series) <? lags) eqn:E2; [discriminate|].
  apply Z.ltb_ge in E1, E2.
  assert (Hl : 1 <= lags <= Py.len (s_values series)) by lia.
  intros Hrun. split; [exact Hl|].
  match type of Hrun with
  | rbind ?ix _ = _ => destruct ix as [e1 | ix']
  end; [discriminate Hrun|].
  cbn [rbind] in Hrun.
  rewrite slice_last in Hrun by lia.
  rewrite lag_loop, range_length in Hrun. cbn [app] in Hrun.
  replace (n_steps - 0) with n_steps in Hrun by lia.
  fold (last_window series lags) in Hrun.
  destruct (pd.make_DataFrame _ _ _) as [df'|] eqn:Hmk; [|discriminate Hrun].
  injection Hrun as <-.
  apply make_DataFrame_some in Hmk; [exact Hmk|].
  destruct (last_window_length series lags Hl) as [Hwlen Hw].
  apply Forall_forall. intros r Hr. apply in_map_iff in Hr.
  destruct Hr as [i [<- _]]. fold (lag_row (last_window series lags) i).
  rewrite lag_row_length by exact Hw.
  now rewrite lag_columns_length.
Qed.

(** X8. The argument checks of [make_lag_features], in order: anything but a
    Series raises the TypeError; a Series with [lags < 1] raises the
    ValueError about [lags] even when it is too short as well; and for a
    well-formed Series and [n_steps >= 0] a frame is returned exactly
    when [1 <= lags <= len(series)].  With [n_steps <= 0] on a series
    that has no DatetimeIndex the result is a frame with the lag columns
    and no rows, not an exception. *)
Theorem make_lag_features_validation (series : pyval) (lags n_steps : Z)
  (freq : option offset) :
  (is_Series series = false ->
   make_lag_features series lags n_steps freq
   = Err (TypeError "series must be a pandas Series")) /\
  (is_Series series = true -> lags < 1 ->
   make_lag_features series lags n_steps freq
   = Err (ValueError "lags must be >= 1")) /\
  (forall s : Series,
     series = PySeries s -> series_wf s -> 0 <= n_steps ->
     ((exists df : DataFrame,
         make_lag_features series lags n_steps freq = Ok df)
      <-> 1 <= lags <= Py.len (s_values s))) /\
  (forall s : Series,
     series = PySeries s -> series_wf s ->
     1 <= lags <= Py.len (s_values s) ->
     n_steps <= 0 ->
     (forall stamps, s_index s <> DatetimeIndex stamps) ->
     make_lag_features series lags n_steps freq
     = Ok {| df_columns := lag_columns lags;
             df_index := RangeIndex 0 n_steps;
             df_rows := [] |}).
Proof.
  split; [|split; [|split]].
  - destruct series; try discriminate; reflexivity.
  - destruct series as [d | s | a |]; try discriminate.
    intros _ Hl. unfold make_lag_features.
    apply Z.ltb_lt in Hl. now rewrite Hl.
  - intros s -> Hwf Hn. split.
    + intros [df Hrun]. now apply make_lag_features_ok in Hrun.
    + intros Hl. rewrite make_lag_features_any_freq by auto.
      now eexists.
  - intros s -> Hwf Hl Hn Hix.
    rewrite make_lag_features_any_freq; try assumption.
    + replace (Z.to_nat n_steps) with 0%nat by lia. cbn [seq map].
      unfold future_index_with.
      destruct (s_index s) as [a b | stamps | ls]; try reflexivity.
      exfalso. now apply (Hix stamps).
    + intros stamps Hst. exfalso. now apply (Hix stamps).
Qed.

(** X9. A frequency passed to [make_lag_features] changes the index only:
    on a DatetimeIndex the dates continue at the passed frequency, with
    no inference, and on any other index the argument is ignored; the
    columns and the rows are those of the call without it. *)
Theorem make_lag_features_explicit_freq (series : Series) (lags n_steps : Z)
  (f : offset) :
  series_wf series ->
  1 <= lags <= Py.len (s_values series) ->
  0 <= n_steps ->
  exists df0 : DataFrame,
    make_lag_features (PySeries series) lags n_steps None = Ok df0 /\
    make_lag_features (PySeries series) lags n_steps (Some f)
    = Ok {| df_columns := df_columns df0;
            df_index :=
              match s_index series with
              | DatetimeIndex stamps =>
                  DatetimeIndex
                    (tl (date_range (last_stamp stamps)
                           (S (Z.to_nat n_steps)) f))
              | _ => df_index df0
              end;
            df_rows := df_rows df0 |}.
Proof.
  intros Hwf Hl Hn.
  rewrite !make_lag_features_any_freq by auto.
  eexists. split; [reflexivity|]. cbn [df_columns df_index df_rows].
  unfold future_index_with.
  now destruct (s_index series) as [a b | stamps | ls].
Qed.

(** X10. In the frame [make_lag_features] returns, every row from row [lags]
    on consists of NaN only: past [lags] steps no observed value is
    left in the window. *)
Theorem make_lag_features_rows_beyond_lags (series : Series)
  (lags n_steps : Z) (freq : option offset) (df : DataFrame) :
  make_lag_features (PySeries series) lags n_steps freq = Ok df ->
  forall i : Z,
    lags <= i < n_steps ->
    nth_error (df_rows df) (Z.to_nat i) = Some (repeat nan (Z.to_nat lags)).
Proof.
  intros Hrun i Hi. apply make_lag_features_ok in Hrun.
  destruct Hrun as (Hl & _ & ->).
  destruct (last_window_length series lags Hl) as [Hwlen Hw].
  rewrite nth_error_map, nth_error_seq.
  replace (Z.to_nat i <? Z.to_nat n_steps)%nat with true
    by (symmetry; apply Nat.ltb_lt; lia).
  cbn [option_map Nat.add]. f_equal.
  unfold lag_row. rewrite iter_slide by exact Hw.
  rewrite skipn_all2 by lia. rewrite Nat.min_r by lia.
  cbn [app]. rewrite rev_repeat. now rewrite Hwlen.
Qed.

(** ** More on [project_with_autoregression] *)

Lemma project_run (series : Series) (lags n_steps : Z)
  (gp_kwargs : option kwargs) (log : list event) :
  series_wf series ->
  1 <= lags < Py.len (s_values series) ->
  0 <= n_steps ->
  exists (X : DataFrame) (y : Series),
    training_set series lags = Ok (X, y) /\
    df_columns X = lag_columns lags /\
    project_with_autoregression series lags n_steps gp_kwargs log
    = match call (construct (default no_kwargs gp_kwargs))
                 (fit (PyDataFrame X) (PySeries y)) log with
      | (inl e, log') => (inl e, log')
      | (inr (_, model), log') =>
          match rollout (one_step model (lag_columns lags))
                  (Z.to_nat n_steps) (last_window series lags) with
          | inl e => (inl e, log')
          | inr preds =>
              (inr {| s_index := future_index series n_steps;
                      s_values := preds;
                      s_name := Some (name_or series "gp_forecast") |},
               log')
          end
      end.
Proof.
  intros Hwf Hl Hn.
  eexists. eexists.
  split; [apply training_set_eq; assumption || lia|].
  split; [reflexivity|].
  unfold project_with_autoregression.
  replace (Py.len (s_values series) <=? lags) with false
    by (symmetry; apply Z.leb_gt; lia).
  rewrite training_set_eq by (assumption || lia).
  rewrite make_lag_features_eq by (assumption || lia).
  rewrite slice_last by lia. fold (last_window series lags).
  unfold bind, lift, Ok. cbv beta iota.
  destruct (call _ _ log) as [[e | [u model]] log1]; [reflexivity|].
  cbn [df_columns df_index].
  pose proof (forecast_loop (lag_columns lags) (Py.range 0 n_steps) model log1
                [] (last_window series lags)) as Hloop.
  rewrite range_length in Hloop.
  replace (n_steps - 0) with n_steps in Hloop by lia.
  destruct (rollout _ _ _) as [e | preds].
  - match goal with
    | |- context [for_each ?a ?b ?c ?d] =>
        assert (Hrun : for_each a b c d = (inl e, log1)) by exact Hloop;
        rewrite Hrun
    end.
    reflexivity.
  - destruct Hloop as [Hlen [w' Hw']].
    match goal with
    | |- context [for_each ?a ?b ?c ?d] =>
        assert (Hrun : for_each a b c d = (inr (preds, w', model), log1))
          by exact Hw';
        rewrite Hrun
    end.
    unfold lift, pd.make_Series.
    rewrite Hlen, future_index_length, Nat.eqb_refl. reflexivity.
Qed.

Lemma fit_calls (X y : pyval) (h : heap) :
  exists evs : list event,
    calls (snd (fit X y h)) = calls h ++ evs /\
    (length evs <= 3)%nat /\ (regressor_fits evs <= 1)%nat.
Proof.
  unfold_method. split_cases.
  all: rewrite <- ?app_assoc; simpl.
  all: first [ eexists; split; [reflexivity|];
               unfold regressor_fits; simpl; split; lia
             | exists []; rewrite app_nil_r; split; [reflexivity|];
               unfold regressor_fits; simpl; split; lia ].
Qed.

(** X12. [project_with_autoregression] fits once: whatever [n_steps] is and
    however the call ends after the training set is built, the fitting
    calls it adds to the log are those of its single [fit], at most three
    of them and at most one of the regressor. *)
Theorem project_fits_once (series : Series) (lags n_steps : Z)
  (gp_kwargs : option kwargs) (log : list event) :
  series_wf series ->
  1 <= lags < Py.len (s_values series) ->
  0 <= n_steps ->
  exists (X : DataFrame) (y : Series) (evs : list event),
    training_set series lags = Ok (X, y) /\
    snd (project_with_autoregression series lags n_steps gp_kwargs log)
    = snd (call (construct (default no_kwargs gp_kwargs))
                (fit (PyDataFrame X) (PySeries y)) log) /\
    snd (project_with_autoregression series lags n_steps gp_kwargs log)
    = log ++ evs /\
    (length evs <= 3)%nat /\ (regressor_fits evs <= 1)%nat.
Proof.
  intros Hwf Hl Hn.
  destruct (project_run series lags n_steps gp_kwargs log Hwf Hl Hn)
    as (X & y & Hts & _ & Hrun).
  destruct (fit_calls (PyDataFrame X) (PySeries y)
              {| self := construct (default no_kwargs gp_kwargs);
                 calls := log |}) as (evs & Hevs & Hlen & Hreg).
  exists X, y, evs. split; [exact Hts|].
  assert (Hsnd :
    snd (project_with_autoregression series lags n_steps gp_kwargs log)
    = snd (call (construct (default no_kwargs gp_kwargs))
                (fit (PyDataFrame X) (PySeries y)) log)).
  { rewrite Hrun.
    destruct (call _ _ log) as [[e | [u model]] log1]; [reflexivity|].
    now destruct (rollout _ _ _). }
  split; [exact Hsnd|]. split; [|split; assumption].
  rewrite Hsnd. unfold call.
  destruct (fit _ _ _) as [[e | u] h1]; exact Hevs.
Qed.






Lemma lastn_app_window {A : Type} (a w c : list A) :
  lastn (length w) (a ++ w ++ c) = lastn (length w) (w ++ c).
Proof.
  unfold lastn. rewrite !length_app.
  replace (length a + (length w + length c) - length w)%nat
    with (length a + length c)%nat by lia.
  replace (length w + length c - length w)%nat with (length c) by lia.
  rewrite skipn_app. rewrite skipn_all2 by lia.
  cbn [app]. f_equal. lia.
Qed.

Lemma lastn_all {A : Type} (w : list A) : lastn (length w) w = w.
Proof. unfold lastn. now rewrite Nat.sub_diag. Qed.

Lemma rollout_feedback (f : list float -> result float) (n : nat) :
  forall (w ps : list float),
    w <> [] ->
    rollout f n w = Ok ps ->
    length ps = n /\
    forall i : nat, (i < n)%nat ->
      f (rev (lastn (length w) (w ++ firstn i ps))) = Ok (nth i ps nan).
Proof.
  induction n as [|n IH]; intros w ps Hw Hrun.
  - injection Hrun as <-. split; [reflexivity | intros i Hi; lia].
  - cbn [rollout] in Hrun.
    destruct (f (rev w)) as [e | yhat] eqn:Hf; [discriminate Hrun|].
    cbn [rbind] in Hrun.
    destruct (rollout f n (tl w ++ [yhat])) as [e | rest] eqn:Hrest;
      [discriminate Hrun|].
    cbn [rbind] in Hrun. injection Hrun as <-.
    destruct w as [|a w0]; [congruence|]. cbn [tl] in *.
    destruct (IH (w0 ++ [yhat]) rest) as [Hlen Hsteps];
      [now destruct w0 | exact Hrest |].
    split; [simpl; lia|].
    intros [|j] Hi.
    + cbn [firstn nth]. rewrite app_nil_r, lastn_all. exact Hf.
    + cbn [firstn nth].
      specialize (Hsteps j ltac:(lia)).
      replace (length (a :: w0)) with (length (w0 ++ [yhat]))
        by (rewrite length_app; simpl; lia).
      replace ((a :: w0) ++ yhat :: firstn j rest)
        with ([a] ++ (w0 ++ [yhat]) ++ firstn j rest)
        by (simpl; now rewrite <- app_assoc).
      rewrite lastn_app_window. exact Hsteps.
Qed.

(** X14. The forecasts feed back.  When [project_with_autoregression]
    returns a forecast, its value number [i] is the fitted model's point
    prediction for the last [lags] values, newest first, of the observed
    series followed by the first [i] forecast values. *)
Theorem project_feeds_forecasts_back (series : Series) (lags n_steps : Z)
  (gp_kwargs : option kwargs) (log log' : list event) (forecast : Series) :
  series_wf series ->
  1 <= lags < Py.len (s_values series) ->
  0 <= n_steps ->
  project_with_autoregression series lags n_steps gp_kwargs log
  = (Ok forecast, log') ->
  exists (X : DataFrame) (y : Series) (model : GaussianProcessProjection),
    training_set series lags = Ok (X, y) /\
    call (construct (default no_kwargs gp_kwargs))
         (fit (PyDataFrame X) (PySeries y)) log
    = (Ok (tt, model), log') /\
    length (s_values forecast) = Z.to_nat n_steps /\
    forall i : nat,
      (i < Z.to_nat n_steps)%nat ->
      one_step model (df_columns X)
        (rev (lastn (Z.to_nat lags)
                (s_values series ++ firstn i (s_values forecast))))
      = Ok (nth i (s_values forecast) nan).
Proof.
  intros Hwf Hl Hn Hrun.
  destruct (project_run series lags n_steps gp_kwargs log Hwf Hl Hn)
    as (X & y & Hts & Hcols & Heq).
  rewrite Heq in Hrun. clear Heq.
  destruct (call _ _ log) as [[e | [[] model]] log1] eqn:Hcall;
    [discriminate Hrun|].
  destruct (rollout _ _ _) as [e | preds] eqn:Hroll; [discriminate Hrun|].
  injection Hrun as <- <-. cbn [s_values].
  exists X, y, model. split; [exact Hts|]. split; [exact Hcall|].
  destruct (last_window_length series lags ltac:(lia)) as [Hwlen Hw].
  destruct (rollout_feedback _ _ _ _ Hw Hroll) as [Hlen Hsteps].
  split; [exact Hlen|]. intros i Hi. rewrite Hcols.
  specialize (Hsteps i Hi). rewrite <- Hsteps.
  replace (s_values series ++ firstn i preds)
    with (firstn (length (s_values series) - Z.to_nat lags) (s_values series)
          ++ last_window series lags ++ firstn i preds)
    by (rewrite app_assoc; f_equal; apply firstn_skipn).
  rewrite <- Hwlen. now rewrite lastn_app_window.
Qed.

Lemma predict_other_index (X : DataFrame) (ix : Index) (return_std : bool)
  (h : heap) :
  index_length ix = index_length (df_index X) ->
  fst (predict (PyDataFrame {| df_columns := df_columns X;
                               df_index := ix;
                               df_rows := df_rows X |}) return_std h)
  = match fst (predict (PyDataFrame X) return_std h) with
    | inl e => inl e
    | inr p => inr (with_index ix p)
    end.
Proof.
  intros Hlen. unfold_method. unfold pd.reindex, pd.make_Series.
  split_cases.
  all: try reflexivity.
  all: congruence.
Qed.

(** X11. For one step, the helper and the forecaster agree: the forecast of
    [project_with_autoregression] with [n_steps = 1] has the index and
    the values that the model it fitted gives by [predict] on the frame
    [make_lag_features] returns for one step, and it raises what that
    [predict] raises. *)
Theorem one_step_forecast_is_predict (series : Series) (lags : Z)
  (gp_kwargs : option kwargs) (log log1 : list event)
  (X : DataFrame) (y : Series) (model : GaussianProcessProjection) :
  series_wf series ->
  1 <= lags < Py.len (s_values series) ->
  training_set series lags = Ok (X, y) ->
  call (construct (default no_kwargs gp_kwargs))
       (fit (PyDataFrame X) (PySeries y)) log
  = (Ok (tt, model), log1) ->
  exists X1 : DataFrame,
    make_lag_features (PySeries series) lags 1 None = Ok X1 /\
    project_with_autoregression series lags 1 gp_kwargs log
    = (match fst (predict (PyDataFrame X1) false
                    {| self := model; calls := log1 |}) with
       | inl e => inl e
       | inr (Point s) =>
           Ok {| s_index := s_index s;
                 s_values := s_values s;
                 s_name := Some (name_or series "gp_forecast") |}
       | inr (WithStd _ _) => Err (LibraryError "iloc[0]")
       end,
       log1).
Proof.
  intros Hwf Hl Hts Hcall.
  destruct (project_run series lags 1 gp_kwargs log Hwf Hl ltac:(lia))
    as (X' & y' & Hts' & Hcols & Hrun).
  rewrite Hts in Hts'. injection Hts' as <- <-.
  rewrite Hcall in Hrun. rewrite Hrun. clear Hrun.
  rewrite make_lag_features_eq by (assumption || lia).
  eexists. split; [reflexivity|].
  fold (last_window series lags).
  destruct (last_window_length series lags ltac:(lia)) as [Hwlen Hw].
  set (w := last_window series lags) in *.
  change (Z.to_nat 1) with 1%nat. cbn [seq map rollout].
  change (lag_row w 0) with (rev w).
  unfold one_step at 1.
  rewrite (make_DataFrame_uniform [rev w] (lag_columns lags) None);
    [| constructor; [|constructor];
       now rewrite length_rev, lag_columns_length
     | reflexivity ].
  cbn [library rbind Ok default].
  rewrite (predict_reads_only _ _ {| self := model; calls := log1 |}).
  cbn [fst self].
  pose proof (predict_other_index
                {| df_columns := lag_columns lags;
                   df_index := future_index series 1;
                   df_rows := [rev w] |}
                (RangeIndex 0 (Py.len [rev w])) false
                {| self := model; calls := [] |}) as Hix.
  cbn [df_columns df_index df_rows] in Hix.
  rewrite Hix by (rewrite future_index_length; reflexivity). clear Hix.
  pose proof (predict_shape
                {| df_columns := lag_columns lags;
                   df_index := future_index series 1;
                   df_rows := [rev w] |} false
                {| self := model; calls := [] |}) as Hshape.
  destruct (fst (predict _ false {| self := model; calls := [] |}))
    as [e | [s | s sd]]; cbn [rbind with_index iloc0].
  - reflexivity.
  - destruct Hshape as (_ & Hsix & Hslen & _).
    cbn [df_index] in Hsix, Hslen.
    rewrite future_index_length in Hslen.
    cbn [series_with_index s_values].
    destruct (s_values s) as [|v [|v' vs]] eqn:Hv; try discriminate Hslen.
    cbn [Py.getitem]. cbn. now rewrite Hsix.
  - reflexivity.
Qed.


End Properties.

(** * Properties of the CSV reader *)

Section ReaderProperties.

Variable py_float : string -> option float.

Import PlotCma.

Lemma read_row_numbers (r : row) (a b c d : vector) :
  read_row py_float r (a, b, c, d)
  = match row_numbers py_float r with
    | inl e => inl e
    | inr (x1, x2, x3, x4) => inr (a ++ [x1], b ++ [x2], c ++ [x3], d ++ [x4])
    end.
Proof.
  unfold read_row, row_numbers.
  destruct (float_cell py_float r "sample"); [reflexivity|].
  destruct (float_cell py_float r "short"); [reflexivity|].
  destruct (float_cell py_float r "long"); [reflexivity|].
  now destruct (float_cell py_float r "diff").
Qed.

Lemma read_rows_ok (reader : list row) :
  forall a b c d a' b' c' d' : vector,
    read_rows py_float reader (a, b, c, d) = inr (a', b', c', d') ->
    exists xa xb xc xd : vector,
      a' = a ++ xa /\ b' = b ++ xb /\ c' = c ++ xc /\ d' = d ++ xd /\
      length xa = length reader /\ length xb = length reader /\
      length xc = length reader /\ length xd = length reader /\
      forall (i : nat) (r : row),
        nth_error reader i = Some r ->
        row_numbers py_float r
        = inr (nth i xa nan, nth i xb nan, nth i xc nan, nth i xd nan).
Proof.
  induction reader as [|r rest IH]; intros a b c d a' b' c' d' Hrun.
  - injection Hrun as <- <- <- <-. exists [], [], [], [].
    rewrite !app_nil_r. repeat split; try reflexivity.
    intros [|i] r0 Hr0; discriminate Hr0.
  - cbn [read_rows] in Hrun. rewrite read_row_numbers in Hrun.
    destruct (row_numbers py_float r) as [e | [[[x1 x2] x3] x4]] eqn:Hrow;
      [discriminate Hrun|].
    apply IH in Hrun.
    destruct Hrun as (xa & xb & xc & xd & -> & -> & -> & -> &
                      Ha & Hb & Hc & Hd & Hnth).
    exists (x1 :: xa), (x2 :: xb), (x3 :: xc), (x4 :: xd).
    rewrite <- !app_assoc. cbn [app length].
    repeat split; try reflexivity; try lia.
    intros [|i] r0 Hr0.
    + injection Hr0 as <-. exact Hrow.
    + cbn [nth]. now apply Hnth.
Qed.

(** X16. When [read_csv] returns, its four lists have one entry per data row,
    and entry [i] of each is the number in row [i] under [sample],
    [short], [long] and [diff]: the lists are aligned with the rows and in
    their order. *)
Theorem read_csv_aligned (reader : list row)
  (samples short longv diff : vector) :
  read_csv py_float reader = inr (samples, short, longv, diff) ->
  length samples = length reader /\
  length short = length reader /\
  length longv = length reader /\
  length diff = length reader /\
  forall (i : nat) (r : row),
    nth_error reader i = Some r ->
    float_cell py_float r "sample" = inr (nth i samples nan) /\
    float_cell py_float r "short" = inr (nth i short nan) /\
    float_cell py_float r "long" = inr (nth i longv nan) /\
    float_cell py_float r "diff" = inr (nth i diff nan).
Proof.
  unfold read_csv. intros Hrun. apply read_rows_ok in Hrun.
  destruct Hrun as (xa & xb & xc & xd & -> & -> & -> & -> &
                    Ha & Hb & Hc & Hd & Hnth).
  cbn [app]. repeat split; try assumption.
  all: specialize (Hnth i r H); unfold row_numbers in Hnth.
  all: destruct (float_cell py_float r "sample"); [discriminate Hnth|].
  all: destruct (float_cell py_float r "short"); [discriminate Hnth|].
  all: destruct (float_cell py_float r "long"); [discriminate Hnth|].
  all: destruct (float_cell py_float r "diff"); [discriminate Hnth|].
  all: congruence.
Qed.



End ReaderProperties.

(** * The properties on data *)

(** C1: the frame without [lag2] is reindexed, not rejected. *)
Lemma predict_missing_column_witness :
  exists X' : DataFrame,
    pd.reindex Standin.partial (Some ["lag1"; "lag2"]) = Some X' /\
    df_columns X' = ["lag1"; "lag2"] /\
    Forall (fun r => pd.cell (df_columns X') r "lag2" = nan) (df_rows X') /\
    predict (PyDataFrame Standin.partial) false Standin.fitted
      = predict (PyDataFrame X') false Standin.fitted /\
    fst (predict (PyDataFrame Standin.partial) false Standin.fitted)
      <> Err SchemaMismatch.
Proof.
  apply (predict_missing_column (SK := Standin.sklearn)
           Standin.fitted Standin.partial false ["lag1"; "lag2"] "lag2").
  - reflexivity.
  - reflexivity.
  - simpl. tauto.
  - simpl. intros [H | []]. discriminate H.
  - reflexivity.
Defined.

(** What [predict] returns for that frame: with a regressor that refuses
    NaN the exception is the regressor's; with one that does not, a
    projection comes back. *)
Example missing_column_strict_run :
  fst (predict (PyDataFrame Standin.partial) false Standin.fitted)
  = Err (LibraryError "GaussianProcessRegressor.predict").
Proof. reflexivity. Qed.

Example missing_column_lenient_run :
  fst (predict (PyDataFrame Standin.partial) false Standin.fitted_lenient)
  = Ok (Point {| s_index := RangeIndex 0 1;
                 s_values := [nan];
                 s_name := Some "gp_projection" |}).
Proof. reflexivity. Qed.

(** C2: the forecast of the ramp 1..5 with two lags, three steps ahead. *)
Lemma project_rollout_witness :
  project_with_autoregression (SK := Standin.sklearn)
    (CAL := Standin.calendar) Standin.ramp 2 3 None []
  = (Ok {| s_index := RangeIndex 0 3;
           s_values := [6; 7; 8]%float;
           s_name := Some "gp_forecast" |},
     [FitScaler [[2; 1]; [3; 2]; [4; 3]]%float;
      FitScaler [[3]; [4]; [5]]%float;
      FitRegressor [[2; 1]; [3; 2]; [4; 3]]%float [3; 4; 5]%float]).
Proof.
  destruct (project_rollout (SK := Standin.sklearn) (CAL := Standin.calendar)
              Standin.ramp 2 3 None [])
    as (X & y & X_future & Hts & Hm & Hrun).
  - reflexivity.
  - unfold Py.len. simpl. lia.
  - lia.
  - vm_compute in Hts. injection Hts as <- <-.
    vm_compute in Hm. injection Hm as <-.
    exact (proj2 Hrun).
Defined.

(** C3: the rows of the ramp, through the general statement. *)
Lemma supervised_training_rows_witness :
  exists (X : DataFrame) (y : Series),
    training_set Standin.ramp 2 = Ok (X, y) /\
    length (df_rows X) = 3%nat /\
    nth_error (s_values y) 1 = Some 4%float /\
    exists row : list float,
      nth_error (df_rows X) 1 = Some row /\
      nth_error row 0 = Some 3%float /\
      nth_error row 1 = Some 2%float.
Proof.
  destruct (proj1 supervised_training_rows Standin.ramp 2)
    as (X & y & Hts & HX & Hy & Hrows).
  - reflexivity.
  - unfold Py.len. simpl. lia.
  - exists X, y. split; [exact Hts|]. split; [exact HX|].
    destruct (Hrows 3) as [Ht (row & Hrow & Hlen & Hk)].
    + unfold Py.len. simpl. lia.
    + split; [exact Ht|]. exists row. split; [exact Hrow|].
      split.
      * exact (proj2 (Hk 1 ltac:(lia))).
      * exact (proj2 (Hk 2 ltac:(lia))).
Defined.

(** C4: three future rows for the daily series. *)
Lemma make_lag_features_rows_witness :
  exists df : DataFrame,
    make_lag_features (CAL := Standin.calendar)
      (PySeries Standin.daily) 2 3 None = Ok df /\
    length (df_rows df) = 3%nat /\
    nth_error (df_rows df) 0 = Some [40; 30]%float /\
    nth_error (df_rows df) 1 = Some [nan; 40%float] /\
    df_index df
    = DatetimeIndex [4 * Standin.day; 5 * Standin.day; 6 * Standin.day].
Proof.
  destruct (make_lag_features_rows (CAL := Standin.calendar)
              Standin.daily 2 3)
    as (df & Hrun & Hlen & _ & _ & Hrow0 & _ & _ & Hdates & _).
  - reflexivity.
  - unfold Py.len. simpl. lia.
  - lia.
  - exists df. split; [exact Hrun|]. split; [exact Hlen|].
    split; [exact Hrow0|]. split.
    + vm_compute in Hrun. injection Hrun as <-. reflexivity.
    + exact (Hdates _ Standin.day eq_refl eq_refl).
Defined.

(** C5: a new object on which one [fit] has failed. *)
Lemma predict_before_fit_witness :
  never_fitted (snd (fit PyNone PyNone Standin.fresh)) /\
  predict (PyDataFrame Standin.aligned) false
    (snd (fit PyNone PyNone Standin.fresh))
  = (Err NotFitted, snd (fit PyNone PyNone Standin.fresh)).
Proof.
  assert (Hnf : never_fitted (snd (fit PyNone PyNone Standin.fresh))).
  { apply (nf_fit Standin.fresh _ PyNone PyNone
             (TypeError "X must be a pandas DataFrame")).
    - apply (nf_init None true 5 1e-10%float []).
    - reflexivity. }
  split; [exact Hnf|].
  exact (predict_before_fit (SK := Standin.sklearn) _
           (PyDataFrame Standin.aligned) false Hnf).
Defined.

(** C6: columns in another order and one column more. *)
Lemma predict_reindexable_witness :
  pd.reindex Standin.shuffled (Some ["lag1"; "lag2"]) = Some Standin.aligned /\
  predict (PyDataFrame Standin.shuffled) true Standin.fitted
  = predict (PyDataFrame Standin.aligned) true Standin.fitted /\
  fst (predict (PyDataFrame Standin.shuffled) true Standin.fitted)
  = Ok (WithStd {| s_index := RangeIndex 0 1;
                   s_values := [6%float];
                   s_name := Some "gp_projection" |}
                {| s_index := RangeIndex 0 1;
                   s_values := [0%float];
                   s_name := Some "gp_std" |}).
Proof.
  destruct (predict_reindexable (SK := Standin.sklearn)
              Standin.fitted Standin.shuffled ["lag1"; "lag2"] true)
    as (X' & Hre & _ & _ & _ & Heq & _).
  - reflexivity.
  - reflexivity.
  - repeat constructor; simpl; intuition discriminate.
  - intros c [<- | [<- | []]]; simpl; tauto.
  - assert (HX' : X' = Standin.aligned).
    { vm_compute in Hre. now injection Hre as <-. }
    subst X'. split; [exact Hre|]. split; [exact Heq | reflexivity].
Defined.

(** C6 as the specification words it fails when a label repeats: the
    model is fitted on the columns [a; a; b], the query carries the same
    labels in the order [a; b; a], pandas cannot reindex it, and
    [predict] raises the SchemaMismatch error. *)
Lemma predict_permuted_repeated_labels :
  _is_fitted (self Standin.fitted_twins) = true /\
  _feature_columns (self Standin.fitted_twins) = Some ["a"; "a"; "b"] /\
  Permutation (df_columns Standin.permuted) ["a"; "a"; "b"] /\
  pd.reindex Standin.permuted (Some ["a"; "a"; "b"]) = None /\
  fst (predict (PyDataFrame Standin.permuted) false Standin.fitted_twins)
  = Err SchemaMismatch.
Proof.
  split; [reflexivity|]. split; [reflexivity|]. split.
  - simpl. apply perm_skip. apply perm_swap.
  - split; reflexivity.
Qed.

(** C8: four daily values do not do for four lags. *)
Lemma project_insufficient_data_witness :
  project_with_autoregression (SK := Standin.sklearn)
    (CAL := Standin.calendar) Standin.daily 4 2 None []
  = (Err InsufficientData, []).
Proof.
  apply (proj1 (project_insufficient_data (SK := Standin.sklearn)
                  (CAL := Standin.calendar) Standin.daily 4 2 None [])).
  unfold Py.len. simpl. lia.
Defined.

(** C9: an array for [X], and a frame of three rows against a target of
    two values. *)
Lemma fit_rejects_invalid_input_witness :
  (exists e, TypeMismatch e /\
     fit (PyArray [[1%float]]) (PySeries Standin.ramp_y) Standin.fresh
     = (Err e, Standin.fresh)) /\
  fit (PyDataFrame Standin.ramp_X)
      (PySeries {| s_index := RangeIndex 0 2;
                   s_values := [3; 4]%float;
                   s_name := None |})
      Standin.fresh
  = (Err LengthMismatch, Standin.fresh).
Proof.
  split.
  - apply (proj1 (fit_rejects_invalid_input (SK := Standin.sklearn)
                    (PyArray [[1%float]]) (PySeries Standin.ramp_y)
                    Standin.fresh)).
    left. reflexivity.
  - apply (proj1 (proj2 (fit_rejects_invalid_input (SK := Standin.sklearn)
                           (PyDataFrame Standin.ramp_X) _ Standin.fresh))
             Standin.ramp_X _ eq_refl eq_refl).
    simpl. lia.
Defined.

(** C10: four daily values do for four lags in [make_lag_features]. *)
Lemma make_lag_features_weaker_precondition_witness :
  (exists df : DataFrame,
     make_lag_features (CAL := Standin.calendar)
       (PySeries Standin.daily) 4 2 None = Ok df /\
     length (df_rows df) = 2%nat) /\
  project_with_autoregression (SK := Standin.sklearn)
    (CAL := Standin.calendar) Standin.daily 4 2 None []
  = (Err InsufficientData, []).
Proof.
  destruct (make_lag_features_weaker_precondition (SK := Standin.sklearn)
              (CAL := Standin.calendar) Standin.daily 4 2 None None [])
    as (_ & _ & Hequal).
  - lia.
  - apply Hequal.
    + reflexivity.
    + reflexivity.
    + lia.
Defined.

(** * The further properties on data *)

(** X1: the model fitted on the ramp. *)
Lemma fit_success_state_witness :
  fit (PyDataFrame Standin.ramp_X) (PySeries Standin.ramp_y) Standin.fresh
  = (Ok tt, Standin.fitted) /\
  _is_fitted (self Standin.fitted) = true /\
  _feature_columns (self Standin.fitted) = Some ["lag1"; "lag2"].
Proof.
  split; [reflexivity|].
  destruct (fit_success_state (SK := Standin.sklearn)
              (PyDataFrame Standin.ramp_X) (PySeries Standin.ramp_y)
              Standin.fresh Standin.fitted eq_refl)
    as (Xd & ys & HX & _ & _ & Hf & Hc & _).
  injection HX as <-. split; [exact Hf | exact Hc].
Defined.


(** X3: the three fitting calls behind the fitted model. *)
Lemma fit_success_calls_witness :
  calls Standin.fitted
  = [FitScaler [[2; 1]; [3; 2]; [4; 3]]%float;
     FitScaler [[3]; [4]; [5]]%float;
     FitRegressor [[2; 1]; [3; 2]; [4; 3]]%float [3; 4; 5]%float].
Proof.
  destruct (fit_success_calls (SK := Standin.sklearn)
              Standin.ramp_X Standin.ramp_y Standin.fresh Standin.fitted
              eq_refl)
    as (Xs & targets & HXs & _ & Hnorm & Hcalls & _).
  injection HXs as <-.
  destruct (Hnorm eq_refl) as (sy & T & Hsy & HT & ->).
  injection Hsy as <-. injection HT as <-.
  exact Hcalls.
Defined.

(** X4: the fitted model is reachable. *)
Lemma reachable_attributes_present_witness :
  reachable Standin.fitted /\ consistent (self Standin.fitted).
Proof.
  assert (Hr : reachable Standin.fitted).
  { apply (reach_fit Standin.fresh _ (PyDataFrame Standin.ramp_X)
             (PySeries Standin.ramp_y) (Ok tt)).
    - apply (reach_init None true 5 1e-10%float []).
    - reflexivity. }
  split; [exact Hr|].
  exact (proj1 (reachable_attributes_present (SK := Standin.sklearn)
                  Standin.fitted Hr)).
Defined.

(** X5: a query frame that repeats a label. *)
Lemma predict_own_exceptions_witness :
  fst (predict (PyDataFrame Standin.doubled) false Standin.fitted)
  = Err SchemaMismatch.
Proof.
  apply (proj2 (proj2 (predict_own_exceptions (SK := Standin.sklearn)
                         (PyDataFrame Standin.doubled) false Standin.fitted))).
  split; [reflexivity|].
  exists Standin.doubled, ["lag1"; "lag2"].
  split; [reflexivity|]. split; [reflexivity|].
  split; [discriminate | reflexivity].
Defined.

(** X6: projection and deviation for the shuffled frame. *)
Lemma predict_output_shape_witness :
  exists y sd : Series,
    predict (PyDataFrame Standin.shuffled) true Standin.fitted
    = (Ok (WithStd y sd), Standin.fitted) /\
    labelled_like Standin.shuffled "gp_projection" y /\
    labelled_like Standin.shuffled "gp_std" sd.
Proof.
  eexists. eexists. split; [reflexivity|].
  exact (proj2 (predict_output_shape (SK := Standin.sklearn)
                  Standin.shuffled true Standin.fitted Standin.fitted _
                  eq_refl)).
Defined.

(** X7: the projection for the aligned frame, from the call with deviations. *)
Lemma return_std_keeps_projection_witness :
  fst (predict (PyDataFrame Standin.aligned) false Standin.fitted)
  = Ok (Point {| s_index := RangeIndex 0 1;
                 s_values := [6%float];
                 s_name := Some "gp_projection" |}).
Proof.
  apply (proj1 (return_std_keeps_projection (SK := Standin.sklearn)
                  (PyDataFrame Standin.aligned) Standin.fitted)
           _ {| s_index := RangeIndex 0 1;
                s_values := [0%float];
                s_name := Some "gp_std" |}).
  reflexivity.
Defined.

(** X8: no lags, as many lags as values, and a negative number of steps. *)
Lemma make_lag_features_validation_witness :
  make_lag_features (CAL := Standin.calendar) (PySeries Standin.ramp) 0 3 None
  = Err (ValueError "lags must be >= 1") /\
  ((exists df : DataFrame,
      make_lag_features (CAL := Standin.calendar)
        (PySeries Standin.ramp) 5 3 None = Ok df)
   <-> 1 <= 5 <= Py.len (s_values Standin.ramp)) /\
  make_lag_features (CAL := Standin.calendar) (PySeries Standin.ramp) 2 (-3) None
  = Ok {| df_columns := ["lag1"; "lag2"];
          df_index := RangeIndex 0 (-3);
          df_rows := [] |}.
Proof.
  split; [|split].
  - apply (proj1 (proj2 (make_lag_features_validation
                           (CAL := Standin.calendar)
                           (PySeries Standin.ramp) 0 3 None)));
      [reflexivity | lia].
  - apply (proj1 (proj2 (proj2 (make_lag_features_validation
                                  (CAL := Standin.calendar)
                                  (PySeries Standin.ramp) 5 3 None)))
             Standin.ramp eq_refl); [reflexivity | lia].
  - apply (proj2 (proj2 (proj2 (make_lag_features_validation
                                  (CAL := Standin.calendar)
                                  (PySeries Standin.ramp) 2 (-3) None)))
             Standin.ramp eq_refl).
    + reflexivity.
    + unfold Py.len. simpl. lia.
    + lia.
    + discriminate.
Defined.

(** X9: the daily series continued weekly. *)
Lemma make_lag_features_explicit_freq_witness :
  make_lag_features (CAL := Standin.calendar)
    (PySeries Standin.daily) 2 2 (Some (7 * Standin.day))
  = Ok {| df_columns := ["lag1"; "lag2"];
          df_index := DatetimeIndex [10 * Standin.day; 17 * Standin.day];
          df_rows := [[40; 30]%float; [nan; 40%float]] |}.
Proof.
  destruct (make_lag_features_explicit_freq (CAL := Standin.calendar)
              Standin.daily 2 2 (7 * Standin.day))
    as (df0 & H0 & Hf).
  - reflexivity.
  - unfold Py.len. simpl. lia.
  - lia.
  - vm_compute in H0. injection H0 as <-. exact Hf.
Defined.

(** X10: rows 2 and 3 for two lags. *)
Lemma make_lag_features_rows_beyond_lags_witness :
  exists df : DataFrame,
    make_lag_features (CAL := Standin.calendar)
      (PySeries Standin.ramp) 2 4 None = Ok df /\
    nth_error (df_rows df) 2 = Some [nan; nan] /\
    nth_error (df_rows df) 3 = Some [nan; nan].
Proof.
  eexists. split; [reflexivity|]. split.
  - exact (make_lag_features_rows_beyond_lags (CAL := Standin.calendar)
             Standin.ramp 2 4 None _ eq_refl 2 ltac:(lia)).
  - exact (make_lag_features_rows_beyond_lags (CAL := Standin.calendar)
             Standin.ramp 2 4 None _ eq_refl 3 ltac:(lia)).
Defined.

(** X11: one step ahead for the ramp. *)
Lemma one_step_forecast_is_predict_witness :
  exists X1 : DataFrame,
    make_lag_features (CAL := Standin.calendar)
      (PySeries Standin.ramp) 2 1 None = Ok X1 /\
    fst (project_with_autoregression (SK := Standin.sklearn)
           (CAL := Standin.calendar) Standin.ramp 2 1 None [])
    = match fst (predict (PyDataFrame X1) false Standin.fitted) with
      | inl e => inl e
      | inr (Point s) =>
          Ok {| s_index := s_index s;
                s_values := s_values s;
                s_name := Some "gp_forecast" |}
      | inr (WithStd _ _) => Err (LibraryError "iloc[0]")
      end.
Proof.
  destruct (one_step_forecast_is_predict (SK := Standin.sklearn)
              (CAL := Standin.calendar) Standin.ramp 2 None []
              (calls Standin.fitted) Standin.ramp_X Standin.ramp_y
              (self Standin.fitted))
    as (X1 & HX1 & Hrun).
  - reflexivity.
  - unfold Py.len. simpl. lia.
  - reflexivity.
  - reflexivity.
  - exists X1. split; [exact HX1|]. rewrite Hrun. reflexivity.
Defined.

(** X12: fifty steps, one fit. *)
Lemma project_fits_once_witness :
  exists evs : list event,
    snd (project_with_autoregression (SK := Standin.sklearn)
           (CAL := Standin.calendar) Standin.ramp 2 50 None [])
    = [] ++ evs /\
    (length evs <= 3)%nat /\ (regressor_fits evs <= 1)%nat.
Proof.
  destruct (project_fits_once (SK := Standin.sklearn)
              (CAL := Standin.calendar) Standin.ramp 2 50 None [])
    as (X & y & evs & _ & _ & Hlog & Hlen & Hreg).
  - reflexivity.
  - unfold Py.len. simpl. lia.
  - lia.
  - exists evs. split; [exact Hlog|]. split; assumption.
Defined.


(** X14: steps 1 and 2 of the forecast 6, 7, 8. *)
Lemma project_feeds_forecasts_back_witness :
  exists (X : DataFrame) (model : @GaussianProcessProjection Standin.sklearn),
    one_step model (df_columns X) (rev (lastn 2 ([1; 2; 3; 4; 5] ++ [6])%float))
    = Ok 7%float /\
    one_step model (df_columns X)
      (rev (lastn 2 ([1; 2; 3; 4; 5] ++ [6; 7])%float))
    = Ok 8%float.
Proof.
  destruct (project_feeds_forecasts_back (SK := Standin.sklearn)
              (CAL := Standin.calendar) Standin.ramp 2 3 None []
              (calls Standin.fitted)
              {| s_index := RangeIndex 0 3;
                 s_values := [6; 7; 8]%float;
                 s_name := Some "gp_forecast" |})
    as (X & y & model & _ & _ & _ & Hsteps).
  - reflexivity.
  - unfold Py.len. simpl. lia.
  - lia.
  - reflexivity.
  - exists X, model. split.
    + exact (Hsteps 1%nat ltac:(lia)).
    + exact (Hsteps 2%nat ltac:(lia)).
Defined.


(** X16: two rows. *)
Lemma read_csv_aligned_witness :
  PlotCma.read_csv Standin.parse Standin.csv_rows
  = inr ([0; 1], [10; 11], [12; 12], [2; 1])%float /\
  (length [0; 1]%float = length Standin.csv_rows /\
   length [2; 1]%float = length Standin.csv_rows).
Proof.
  split; [reflexivity|].
  destruct (read_csv_aligned Standin.parse Standin.csv_rows
              [0; 1]%float [10; 11]%float [12; 12]%float [2; 1]%float
              eq_refl)
    as (Ha & _ & _ & Hd & _).
  split; [exact Ha | exact Hd].
Defined.

